(** * The SCB pull scripts: fetch, dispatch on the response format, normalise, persist

    Shallow embedding of
      - [Python_pull/1_SCBdirect_estimate.py]  (module [DirectEstimate])
      - [Python_pull/2_SCBpopDensity.py]       (module [PopDensity])

    Each script is a straight line of statements over the outside world
    (a configuration file, one HTTP POST, the [data/] directory, standard
    output).  The scripts are embedded in a state-and-exception monad whose
    state is the file system together with the trace of the effects
    requested so far; an uncaught Python exception ends the run and keeps
    the effects that precede it.

    Conventions of the model.
      - Python [str] values are carried as byte strings in UTF-8.  The
        character classes of [re] and [str] are those of the ASCII range:
        [\d] is [0-9]; [\s] and [str.strip] use the white space of
        [str.isspace] below 128; case folding acts on [A-Z].
      - The library calls are modelled as far as the scripts use them:
        [json.load] and [requests.post] are answers of the world; [re]
        is the pattern fragment of module [Re]; pandas is the C parser
        of [read_csv] with its defaults, columns of dtype [object],
        [int64], [float64] and [bool], and [to_csv] through [csv.writer].
      - [float64] cells are carried as exact decimals and printed the way
        [repr] prints the shortest round-tripping decimal; binary rounding
        of tokens with more than fifteen significant digits is not modelled.
      - The operating system performs every operation it is asked for
        (permissions and disk errors are outside the model), standard
        output takes every string, paths are kept as [pathlib] joins them
        without further normalisation, and line separators are those of
        POSIX. *)

From Stdlib Require Import ZArith String Ascii List Bool Lia DecimalString.
From stdpp Require Import gmap strings.
Import ListNotations.

Local Open Scope string_scope.
Set Warnings "-register-all".

(** ** Text *)

Module Text.

Definition code (a : ascii) : nat := nat_of_ascii a.

(** [str.isdigit] / [\d] below 128. *)
Definition is_digit (a : ascii) : bool :=
  ((48 <=? code a) && (code a <=? 57))%nat.

(** [str.isspace] / [\s] below 128: TAB LF VT FF CR, FS GS RS US, SPACE. *)
Definition is_space (a : ascii) : bool :=
  (((9 <=? code a) && (code a <=? 13))
   || ((28 <=? code a) && (code a <=? 31))
   || (code a =? 32))%nat.

Definition is_upper (a : ascii) : bool :=
  ((65 <=? code a) && (code a <=? 90))%nat.

Definition lower_char (a : ascii) : ascii :=
  if is_upper a then ascii_of_nat (code a + 32) else a.

(** [str.lower()] *)
Fixpoint lower (s : string) : string :=
  match s with
  | EmptyString => EmptyString
  | String a s' => String (lower_char a) (lower s')
  end.

(** [str.lstrip()], [str.rstrip()], [str.strip()] with no argument. *)
Fixpoint lstrip (s : string) : string :=
  match s with
  | EmptyString => EmptyString
  | String a s' => if is_space a then lstrip s' else s
  end.

Fixpoint rstrip (s : string) : string :=
  match s with
  | EmptyString => EmptyString
  | String a s' =>
      match rstrip s' with
      | EmptyString => if is_space a then EmptyString else String a EmptyString
      | r => String a r
      end
  end.

Definition strip (s : string) : string := rstrip (lstrip s).







Fixpoint contains_char (c : ascii) (s : string) : bool :=
  match s with
  | EmptyString => false
  | String a s' => Ascii.eqb a c || contains_char c s'
  end.

Fixpoint span (p : ascii -> bool) (s : string) : string * string :=
  match s with
  | EmptyString => (EmptyString, EmptyString)
  | String a s' =>
      if p a then let '(h, t) := span p s' in (String a h, t)
      else (EmptyString, s)
  end.

Fixpoint all_chars (p : ascii -> bool) (s : string) : bool :=
  match s with
  | EmptyString => true
  | String a s' => p a && all_chars p s'
  end.

Definition non_empty (s : string) : bool :=
  match s with
  | EmptyString => false
  | _ => true
  end.

Fixpoint join (sep : string) (l : list string) : string :=
  match l with
  | [] => EmptyString
  | [x] => x
  | x :: r => x +:+ sep +:+ join sep r
  end.

End Text.

(** ** The fragment of [re] the scripts use

    Patterns are read from their source text.  The fragment has the
    anchors [^] and [$] (no [MULTILINE]), the classes [\d] and [\s],
    literal characters, and the greedy one-or-more [+] on a single
    character or class; matching backtracks in the order of [re]. *)

Module Re.
Import Text.

Inductive cclass :=
| Digit
| Space
| Lit (c : ascii).

Inductive item :=
| Bol
| Eol
| One (c : cclass)
| Plus (c : cclass).

Definition meta (a : ascii) : bool :=
  existsb (Ascii.eqb a)
    ["."; "*"; "+"; "?"; "["; "]"; "("; ")"; "{"; "}"; "|"; "\"; "^"; "$"]%char.

(** [re.compile] on the fragment; [None] outside it. *)
Fixpoint compile (p : string) : option (list item) :=
  match p with
  | EmptyString => Some []
  | String "^" r => option_map (cons Bol) (compile r)
  | String "$" r => option_map (cons Eol) (compile r)
  | String "\" (String "d" r) =>
      match r with
      | String "+" r' => option_map (cons (Plus Digit)) (compile r')
      | _ => option_map (cons (One Digit)) (compile r)
      end
  | String "\" (String "s" r) =>
      match r with
      | String "+" r' => option_map (cons (Plus Space)) (compile r')
      | _ => option_map (cons (One Space)) (compile r)
      end
  | String a r =>
      if meta a then None
      else
        match r with
        | String "+" r' => option_map (cons (Plus (Lit a))) (compile r')
        | _ => option_map (cons (One (Lit a))) (compile r)
        end
  end.

(** One character against a class; [ic] is [re.IGNORECASE]. *)
Definition class_matches (ic : bool) (c : cclass) (a : ascii) : bool :=
  match c with
  | Digit => is_digit a
  | Space => is_space a
  | Lit l => if ic then Ascii.eqb (lower_char a) (lower_char l) else Ascii.eqb a l
  end.

(** [$] without [MULTILINE]: at the end, or just before a final newline. *)
Definition at_eol (s : string) : bool :=
  match s with
  | EmptyString => true
  | String a EmptyString => Ascii.eqb a "010"
  | _ => false
  end.

(** Greedy [c+] followed by the continuation [k]: take as many as
    possible, give back one at a time while [k] fails. *)
Fixpoint plus_then (p : ascii -> bool) (k : string -> option nat) (s : string)
  : option nat :=
  match s with
  | EmptyString => None
  | String a s' =>
      if p a then
        match plus_then p k s' with
        | Some n => Some (S n)
        | None => option_map S (k s')
        end
      else None
  end.

(** Match the items at the head of [s]; [bos] tells whether [s] is the
    whole subject.  The result is the length of the match. *)
Fixpoint match_here (ic : bool) (items : list item) (bos : bool) (s : string)
  : option nat :=
  match items with
  | [] => Some 0
  | Bol :: r => if bos then match_here ic r bos s else None
  | Eol :: r => if at_eol s then match_here ic r bos s else None
  | One c :: r =>
      match s with
      | String a s' =>
          if class_matches ic c a then option_map S (match_here ic r false s')
          else None
      | EmptyString => None
      end
  | Plus c :: r => plus_then (class_matches ic c) (match_here ic r false) s
  end.

(** [pattern.sub(repl, s)]: every non-overlapping match, leftmost first,
    is replaced.  [skip] counts the characters of the current match that
    are still to be dropped. *)
Fixpoint sub_scan (ic : bool) (items : list item) (repl : string)
    (skip : nat) (bos : bool) (s : string) : string :=
  match skip with
  | S n =>
      match s with
      | String _ s' => sub_scan ic items repl n false s'
      | EmptyString => EmptyString
      end
  | O =>
      match match_here ic items bos s with
      | Some (S n) =>
          repl +:+
          match s with
          | String _ s' => sub_scan ic items repl n false s'
          | EmptyString => EmptyString
          end
      | Some O =>
          repl +:+
          match s with
          | String a s' => String a (sub_scan ic items repl 0 false s')
          | EmptyString => EmptyString
          end
      | None =>
          match s with
          | String a s' => String a (sub_scan ic items repl 0 false s')
          | EmptyString => EmptyString
          end
      end
  end.

(** [re.compile(pat, flags).sub(repl, s)]; [None] stands for a pattern
    outside the fragment. *)
Definition sub (pat : string) (ic : bool) (repl s : string) : option string :=
  match compile pat with
  | Some items => Some (sub_scan ic items repl 0 true s)
  | None => None
  end.

End Re.

(** ** Python values and exceptions *)

Module Py.

(** The exceptions the modelled statements raise.  [Raised] stands for an
    exception handed over by the environment ([FileNotFoundError],
    [json.JSONDecodeError], [requests.ConnectionError], ...). *)
Inductive exn :=
| KeyError (args : list string)
| TypeError
| AttributeError
| ValueError
| HTTPError (status_code : Z)
| ParserError
| EmptyDataError
| Raised (cls : string).

(** What [json.load] returns.  A [dict] keeps its items in insertion
    order and has no repeated key; a [float] is named by its [repr]. *)
Inductive value :=
| None_
| Bool (b : bool)
| Int (n : Z)
| Float (repr : string)
| Str (s : string)
| List (l : list value)
| Dict (items : list (string * value)).

Fixpoint lookup (k : string) (items : list (string * value)) : option value :=
  match items with
  | [] => None
  | (k', v) :: r => if String.eqb k k' then Some v else lookup k r
  end.

(** [v[k]] with a string key. *)
Definition getitem (v : value) (k : string) : exn + value :=
  match v with
  | Dict items =>
      match lookup k items with
      | Some x => inr x
      | None => inl (KeyError [k])
      end
  | _ => inl TypeError
  end.

(** [v.get(k, default)]: only a [dict] has the method. *)
Definition get (v : value) (k : string) (default : value) : exn + value :=
  match v with
  | Dict items =>
      match lookup k items with
      | Some x => inr x
      | None => inr default
      end
  | _ => inl AttributeError
  end.

(** [v.lower()]: only a [str] has the method. *)
Definition lower (v : value) : exn + value :=
  match v with
  | Str s => inr (Str (Text.lower s))
  | _ => inl AttributeError
  end.

(** [v == "literal"] *)
Definition eq_str (v : value) (lit : string) : bool :=
  match v with
  | Str s => String.eqb s lit
  | _ => false
  end.

Definition string_of_Z (n : Z) : string := NilZero.string_of_int (Z.to_int n).

Definition hex_digit (n : nat) : ascii :=
  if (n <? 10)%nat then ascii_of_nat (48 + n) else ascii_of_nat (87 + n).

(** [repr] of a [str]: single quotes unless the text has a single quote
    and no double quote; backslash escapes for the quote, the backslash
    and the control characters. *)
Fixpoint repr_chars (q : ascii) (s : string) : string :=
  match s with
  | EmptyString => EmptyString
  | String a r =>
      let n := Text.code a in
      (if Ascii.eqb a q || Ascii.eqb a "\" then String "\" (String a EmptyString)
       else if Ascii.eqb a "010" then "\n"
       else if Ascii.eqb a "013" then "\r"
       else if Ascii.eqb a "009" then "\t"
       else if (n <? 32)%nat || (n =? 127)%nat then
         String "\" (String "x" (String (hex_digit (n / 16))
                                  (String (hex_digit (n mod 16)) EmptyString)))
       else String a EmptyString)
      +:+ repr_chars q r
  end.

Definition DOUBLE_QUOTE : ascii := "034".

Definition repr_str (s : string) : string :=
  let q : ascii :=
    if Text.contains_char "'" s && negb (Text.contains_char DOUBLE_QUOTE s)
    then DOUBLE_QUOTE else "'"%char in
  String q (repr_chars q s) +:+ String q EmptyString.

(** [repr(v)] and [str(v)]; the latter is what an f-string inserts. *)
Fixpoint repr (v : value) : string :=
  match v with
  | None_ => "None"
  | Bool true => "True"
  | Bool false => "False"
  | Int n => string_of_Z n
  | Float r => r
  | Str s => repr_str s
  | List l => "[" +:+ Text.join ", " (map repr l) +:+ "]"
  | Dict items =>
      "{" +:+
      Text.join ", "
        (map (fun kv : string * value =>
                let (k, x) := kv in repr_str k +:+ ": " +:+ repr x) items)
      +:+ "}"
  end.

Definition str (v : value) : string :=
  match v with
  | Str s => s
  | _ => repr v
  end.

End Py.

(** ** The part of pandas the scripts call *)

Module Pandas.
Import Text.

(** An element of an [object] column read from text. *)
Inductive cell :=
| Str (s : string)
| NaN.

(** A [float64] element as an exact decimal [(-1)^neg * mant * 10^exp];
    [mant] is not a multiple of ten unless it is zero. *)
Inductive float64 :=
| FNaN
| FInf (neg : bool)
| FDec (neg : bool) (mant : N) (exp : Z).

(** A column with its dtype.  A [bool] column with missing values has
    dtype [object] in pandas; both are [BoolCol] here. *)
Inductive column :=
| ObjectCol (v : list cell)
| Int64Col (v : list Z)
| Float64Col (v : list float64)
| BoolCol (v : list (option bool)).

(** Columns in order, each under its label; labels may repeat. *)
Definition DataFrame := list (string * column).

Definition columns (df : DataFrame) : list string := map fst df.

(** *** [pd.read_csv(StringIO(text), sep=",")]: the tokenizer *)

Inductive mode :=
| START_RECORD
| START_FIELD
| IN_FIELD
| IN_QUOTED_FIELD
| QUOTE_IN_QUOTED_FIELD
| EAT_CRNL
| EAT_CRNL_NOP
| WHITESPACE_LINE.

Record tokenizer := {
  state : mode;
  field : string;              (* the field being read *)
  fields : list string;        (* the fields of the line being read *)
  lines : list (list string);  (* the lines read *)
  blanks : string              (* leading blanks of a line that may be empty *)
}.

Definition set_state (m : mode) (t : tokenizer) : tokenizer :=
  {| state := m; field := field t; fields := fields t; lines := lines t;
     blanks := blanks t |}.

Definition PUSH_CHAR (c : ascii) (t : tokenizer) : tokenizer :=
  {| state := state t; field := field t +:+ String c EmptyString;
     fields := fields t; lines := lines t; blanks := blanks t |}.

Definition END_FIELD (t : tokenizer) : tokenizer :=
  {| state := state t; field := EmptyString; fields := fields t ++ [field t];
     lines := lines t; blanks := blanks t |}.

Definition END_LINE (t : tokenizer) : tokenizer :=
  {| state := START_RECORD; field := EmptyString; fields := [];
     lines := lines t ++ [fields t]; blanks := EmptyString |}.

Definition LF : ascii := "010".
Definition CR : ascii := "013".
Definition COMMA : ascii := ",".
Definition QUOTE : ascii := "034".

Definition IS_WHITESPACE (c : ascii) : bool := Ascii.eqb c " " || Ascii.eqb c "009".

Definition in_field (c : ascii) (t : tokenizer) : tokenizer :=
  if Ascii.eqb c LF then END_LINE (END_FIELD t)
  else if Ascii.eqb c CR then set_state EAT_CRNL (END_FIELD t)
  else if Ascii.eqb c COMMA then set_state START_FIELD (END_FIELD t)
  else set_state IN_FIELD (PUSH_CHAR c t).

Definition start_field (c : ascii) (t : tokenizer) : tokenizer :=
  if Ascii.eqb c LF then END_LINE (END_FIELD t)
  else if Ascii.eqb c CR then set_state EAT_CRNL (END_FIELD t)
  else if Ascii.eqb c QUOTE then set_state IN_QUOTED_FIELD t
  else if Ascii.eqb c COMMA then set_state START_FIELD (END_FIELD t)
  else set_state IN_FIELD (PUSH_CHAR c t).

(** Empty lines are skipped ([skip_blank_lines=True]); a line that begins
    with blanks is skipped when it has nothing else. *)
Definition start_record (c : ascii) (t : tokenizer) : tokenizer :=
  if Ascii.eqb c LF then set_state START_RECORD t
  else if Ascii.eqb c CR then set_state EAT_CRNL_NOP t
  else if IS_WHITESPACE c then
    {| state := WHITESPACE_LINE; field := field t; fields := fields t;
       lines := lines t; blanks := String c EmptyString |}
  else start_field c t.

Definition whitespace_line (c : ascii) (t : tokenizer) : tokenizer :=
  if Ascii.eqb c LF then
    {| state := START_RECORD; field := field t; fields := fields t;
       lines := lines t; blanks := EmptyString |}
  else if Ascii.eqb c CR then
    {| state := EAT_CRNL_NOP; field := field t; fields := fields t;
       lines := lines t; blanks := EmptyString |}
  else if IS_WHITESPACE c then
    {| state := WHITESPACE_LINE; field := field t; fields := fields t;
       lines := lines t; blanks := blanks t +:+ String c EmptyString |}
  else
    (* not an empty line after all: the blanks open the first field *)
    in_field c {| state := IN_FIELD; field := blanks t; fields := fields t;
                  lines := lines t; blanks := EmptyString |}.

Definition step (t : tokenizer) (c : ascii) : tokenizer :=
  match state t with
  | START_RECORD => start_record c t
  | START_FIELD => start_field c t
  | IN_FIELD => in_field c t
  | IN_QUOTED_FIELD =>
      if Ascii.eqb c QUOTE then set_state QUOTE_IN_QUOTED_FIELD t
      else PUSH_CHAR c t
  | QUOTE_IN_QUOTED_FIELD =>
      if Ascii.eqb c QUOTE then set_state IN_QUOTED_FIELD (PUSH_CHAR c t)
      else if Ascii.eqb c COMMA then set_state START_FIELD (END_FIELD t)
      else if Ascii.eqb c LF then END_LINE (END_FIELD t)
      else if Ascii.eqb c CR then set_state EAT_CRNL (END_FIELD t)
      else set_state IN_FIELD (PUSH_CHAR c t)
  | EAT_CRNL =>
      if Ascii.eqb c LF then END_LINE t
      else start_record c (END_LINE t)
  | EAT_CRNL_NOP =>
      if Ascii.eqb c LF || Ascii.eqb c COMMA then set_state START_RECORD t
      else start_record c (set_state START_RECORD t)
  | WHITESPACE_LINE => whitespace_line c t
  end.

Fixpoint tokenize_all (t : tokenizer) (s : string) : tokenizer :=
  match s with
  | EmptyString => t
  | String c s' => tokenize_all (step t c) s'
  end.

(** End of the data: an open quote is an error, an open line is closed. *)
Definition handle_eof (t : tokenizer) : Py.exn + list (list string) :=
  match state t with
  | START_RECORD | WHITESPACE_LINE | EAT_CRNL_NOP => inr (lines t)
  | IN_QUOTED_FIELD => inl Py.ParserError
  | IN_FIELD | START_FIELD | QUOTE_IN_QUOTED_FIELD =>
      inr (lines (END_LINE (END_FIELD t)))
  | EAT_CRNL => inr (lines (END_LINE t))
  end.

Definition skip_bom (s : string) : string :=
  match s with
  | String "239" (String "187" (String "191" r)) => r
  | _ => s
  end.

Definition tokenize (text : string) : Py.exn + list (list string) :=
  handle_eof
    (tokenize_all
       {| state := START_RECORD; field := EmptyString; fields := [];
          lines := []; blanks := EmptyString |}
       (skip_bom text)).

(** The width of the table is that of the first data line, or of the
    header when that is wider; a later line with more fields is an error
    and a shorter one is completed with empty fields. *)
Definition pad (width : nat) (row : list string) : list string :=
  row ++ repeat EmptyString (width - List.length row).

Fixpoint check_rows (width : nat) (rows : list (list string))
  : Py.exn + list (list string) :=
  match rows with
  | [] => inr []
  | r :: rest =>
      if (width <? List.length r)%nat then inl Py.ParserError
      else
        match check_rows width rest with
        | inl e => inl e
        | inr rest' => inr (pad width r :: rest')
        end
  end.

(** *** Column labels *)

Definition string_of_nat (n : nat) : string :=
  NilZero.string_of_uint (Nat.to_uint n).

Fixpoint name_unnamed (i : nat) (header : list string) : list string :=
  match header with
  | [] => []
  | h :: r =>
      (if String.eqb h EmptyString then "Unnamed: " +:+ string_of_nat i else h)
      :: name_unnamed (S i) r
  end.

Fixpoint count_of (col : string) (counts : list (string * nat)) : nat :=
  match counts with
  | [] => 0
  | (k, n) :: r => if String.eqb k col then n else count_of col r
  end.

(** A repeated label [x] becomes [x.1], [x.2], ...; the loop of
    [mangle_dupe_cols] runs at most once for each label seen so far. *)
Fixpoint fresh_label (fuel : nat) (col : string) (counts : list (string * nat))
  : string * list (string * nat) :=
  let cur_count := count_of col counts in
  match fuel, cur_count with
  | S fuel', S _ =>
      fresh_label fuel' (col +:+ "." +:+ string_of_nat cur_count)
        ((col, S cur_count) :: counts)
  | _, _ => (col, (col, S cur_count) :: counts)
  end.

Fixpoint mangle_dupe_cols (header : list string) (counts : list (string * nat))
  : list string :=
  match header with
  | [] => []
  | col :: r =>
      let '(col', counts') := fresh_label (S (List.length counts)) col counts in
      col' :: mangle_dupe_cols r counts'
  end.

(** *** Type inference *)

Definition STR_NA_VALUES : list string :=
  [ "-1.#IND"; "1.#QNAN"; "1.#IND"; "-1.#QNAN"; "#N/A N/A"; "#N/A"; "N/A";
    "n/a"; "NA"; "<NA>"; "#NA"; "NULL"; "null"; "NaN"; "-NaN"; "nan"; "-nan";
    "None"; "" ].

Definition is_na (tok : string) : bool := existsb (String.eqb tok) STR_NA_VALUES.

Definition isspace_ascii (c : ascii) : bool :=
  (Ascii.eqb c " " || ((9 <=? code c) && (code c <=? 13)))%nat.

Fixpoint skip_spaces (s : string) : string :=
  match s with
  | String c r => if isspace_ascii c then skip_spaces r else s
  | EmptyString => EmptyString
  end.

(** A run of decimal digits: its value, its length, what follows. *)
Fixpoint read_digits (acc : N) (n : nat) (s : string) : N * nat * string :=
  match s with
  | String c r =>
      if is_digit c then read_digits (acc * 10 + N.of_nat (code c - 48)) (S n) r
      else (acc, n, s)
  | EmptyString => (acc, n, s)
  end.

Definition read_sign (s : string) : bool * string :=
  match s with
  | String "-" r => (true, r)
  | String "+" r => (false, r)
  | _ => (false, s)
  end.

Definition signed (neg : bool) (v : N) : Z :=
  if neg then (- Z.of_N v)%Z else Z.of_N v.

(** [str_to_int64] without its range check. *)
Definition parse_int (tok : string) : option Z :=
  let '(neg, s) := read_sign (skip_spaces tok) in
  let '(v, n, rest) := read_digits 0 0 s in
  match n with
  | O => None
  | _ => if String.eqb (skip_spaces rest) EmptyString then Some (signed neg v) else None
  end.

Fixpoint strip_tens (fuel : nat) (m : N) (e : Z) : N * Z :=
  match fuel with
  | O => (m, e)
  | S fuel' =>
      if (N.eqb m 0) then (0%N, 0%Z)
      else if N.eqb (m mod 10) 0 then strip_tens fuel' (m / 10)%N (e + 1)%Z
      else (m, e)
  end.

Definition decimal (neg : bool) (m : N) (e : Z) : float64 :=
  let '(m', e') := strip_tens (S (N.to_nat (N.log2 m))) m e in
  FDec neg m' e'.

Definition parse_exponent (s : string) : option (Z * string) :=
  match s with
  | String c r =>
      if Ascii.eqb c "e" || Ascii.eqb c "E" then
        let '(neg, r1) := read_sign r in
        let '(v, n, r2) := read_digits 0 0 r1 in
        match n with
        | O => None
        | _ => Some (signed neg v, r2)
        end
      else Some (0%Z, s)
  | EmptyString => Some (0%Z, s)
  end.

Definition INFINITIES : list (string * bool) :=
  [ ("inf", false); ("+inf", false); ("-inf", true);
    ("infinity", false); ("+infinity", false); ("-infinity", true) ].

Fixpoint assoc_bool (k : string) (l : list (string * bool)) : option bool :=
  match l with
  | [] => None
  | (k', b) :: r => if String.eqb k k' then Some b else assoc_bool k r
  end.

(** The decimal reader of the parser, then the spellings of infinity. *)
Definition parse_float (tok : string) : option float64 :=
  let '(neg, s) := read_sign (skip_spaces tok) in
  let '(v1, n1, s1) := read_digits 0 0 s in
  let '(v2, n2, s2) :=
    match s1 with
    | String "." r => read_digits v1 0 r
    | _ => (v1, O, s1)
    end in
  let number :=
    match (n1 + n2)%nat with
    | O => None
    | _ =>
        match parse_exponent s2 with
        | Some (e, s3) =>
            if String.eqb (skip_spaces s3) EmptyString
            then Some (decimal neg v2 (e - Z.of_nat n2))
            else None
        | None => None
        end
    end in
  match number with
  | Some x => Some x
  | None => option_map FInf (assoc_bool (lower tok) INFINITIES)
  end.

Definition parse_bool (tok : string) : option bool :=
  if existsb (String.eqb tok) ["True"; "TRUE"; "true"] then Some true
  else if existsb (String.eqb tok) ["False"; "FALSE"; "false"] then Some false
  else None.

(** Convert every token with [f]; a missing value gives [na]. *)
Fixpoint convert {A} (f : string -> option A) (na : option A) (toks : list string)
  : option (list A) :=
  match toks with
  | [] => Some []
  | t :: r =>
      match (if is_na t then na else f t), convert f na r with
      | Some x, Some xs => Some (x :: xs)
      | _, _ => None
      end
  end.

Definition in_int64 (z : Z) : bool :=
  ((- 2 ^ 63 <=? z) && (z <? 2 ^ 63))%Z.

Definition in_uint64 (z : Z) : bool :=
  ((0 <=? z) && (z <? 2 ^ 64))%Z.

Definition float_of_int (z : Z) : float64 :=
  decimal (z <? 0)%Z (Z.abs_N z) 0.

Definition object_col (toks : list string) : column :=
  ObjectCol (map (fun t => if is_na t then NaN else Str t) toks).

(** The cast order of the parser: [int64], [float64], [bool], [object].
    An integer column with missing values is upcast to [float64]; an
    integer outside [int64] makes the column [uint64] when all its values
    fit and [object] otherwise. *)
Definition infer_column (toks : list string) : column :=
  match toks with
  | [] => ObjectCol []
  | _ =>
      match convert (fun t => option_map Some (parse_int t)) (Some None) toks with
      | Some ints =>
          let present := omap id ints in
          if forallb in_int64 present then
            if forallb (fun o : option Z => match o with Some _ => true | None => false end) ints
            then Int64Col present
            else Float64Col
                   (map (fun o : option Z =>
                           match o with Some z => float_of_int z | None => FNaN end) ints)
          else if forallb (fun o : option Z =>
                             match o with Some z => in_uint64 z | None => false end) ints
          then Int64Col present
          else object_col toks
      | None =>
          match convert parse_float (Some FNaN) toks with
          | Some floats => Float64Col floats
          | None =>
              match convert (fun t => option_map Some (parse_bool t)) (Some None) toks with
              | Some bools => BoolCol bools
              | None => object_col toks
              end
          end
      end
  end.

(** *** [read_csv] *)

Definition nth_field (i : nat) (row : list string) : string := nth i row EmptyString.

Definition read_csv (text : string) : Py.exn + DataFrame :=
  match tokenize text with
  | inl e => inl e
  | inr [] => inl Py.EmptyDataError
  | inr (header :: data) =>
      let names := mangle_dupe_cols (name_unnamed 0 header) [] in
      let width :=
        match data with
        | [] => List.length header
        | first :: _ => Nat.max (List.length first) (List.length header)
        end in
      match check_rows width data with
      | inl e => inl e
      | inr rows =>
          (* data columns without a label come first and form the index *)
          let leading_cols := (width - List.length header)%nat in
          inr (map (fun '(i, name) =>
                      (name, infer_column (map (nth_field (leading_cols + i)) rows)))
                 (combine (seq 0 (List.length names)) names))
      end
  end.

(** *** Frame operations *)

(** [df.rename(columns=mapper)]: labels absent from the frame are ignored. *)
Definition rename (mapper : list (string * string)) (df : DataFrame) : DataFrame :=
  map (fun '(name, col) =>
         match find (fun kv : string * string => String.eqb (fst kv) name) mapper with
         | Some (_, new) => (new, col)
         | None => (name, col)
         end) df.

Definition labelled (label : string) (df : DataFrame) : DataFrame :=
  List.filter (fun nc : string * column => String.eqb (fst nc) label) df.

Definition has_label (df : DataFrame) (label : string) : bool :=
  existsb (String.eqb label) (columns df).

(** [df[[l1, ..., ln]]]: the columns under each label, in the order of the
    labels; a label that is not a column raises [KeyError]. *)
Definition getitem_list (df : DataFrame) (labels : list string) : Py.exn + DataFrame :=
  match List.filter (fun l => negb (has_label df l)) labels with
  | [] => inr (flat_map (fun l => labelled l df) labels)
  | missing => inl (Py.KeyError missing)
  end.

(** What [df[label]] evaluates to. *)
Inductive selection :=
| Series (col : column)
| Frame (df : DataFrame).

Definition getitem (df : DataFrame) (label : string) : Py.exn + selection :=
  match labelled label df with
  | [] => inl (Py.KeyError [label])
  | [(_, col)] => inr (Series col)
  | several => inr (Frame several)
  end.

(** [df[label] = col] *)
Definition setitem (df : DataFrame) (label : string) (col : column) : DataFrame :=
  if has_label df label then
    map (fun '(name, c) => if String.eqb name label then (name, col) else (name, c)) df
  else (df ++ [(label, col)])%list.

(** [.str]: a [Series] of strings (dtype [object]) has the accessor, a
    [Series] of another dtype and a [DataFrame] do not. *)
Definition str (x : selection) : Py.exn + list cell :=
  match x with
  | Series (ObjectCol v) => inr v
  | _ => inl Py.AttributeError
  end.

(** A string method applied element by element; missing values stay. *)
Definition str_map (f : string -> string) (v : list cell) : list cell :=
  map (fun c => match c with Str s => Str (f s) | NaN => NaN end) v.

(** *** [df.to_csv(path, index=False)] *)

Fixpoint zeros (n : nat) : string :=
  match n with
  | O => EmptyString
  | S n' => String "0" (zeros n')
  end.

Definition string_of_N (n : N) : string := NilZero.string_of_uint (N.to_uint n).

(** [repr] of a float: positional notation when the decimal point falls
    within [-4 < decpt <= 16], scientific notation otherwise. *)
Definition repr_float (x : float64) : string :=
  match x with
  | FNaN => "nan"
  | FInf neg => if neg then "-inf" else "inf"
  | FDec neg m e =>
      let digits := string_of_N m in
      let n := Z.of_nat (String.length digits) in
      let decpt := (if N.eqb m 0 then 1 else n + e)%Z in
      (if neg then "-" else "") +:+
      (if ((decpt <=? -4) || (16 <? decpt))%Z then
         String.substring 0 1 digits
         +:+ (if (1 <? n)%Z
              then "." +:+ String.substring 1 (String.length digits - 1) digits
              else "")
         +:+ "e" +:+ (if (decpt - 1 <? 0)%Z then "-" else "+")
         +:+ (if (Z.abs (decpt - 1) <? 10)%Z then "0" else "")
         +:+ Py.string_of_Z (Z.abs (decpt - 1))
       else if (decpt <=? 0)%Z then
         "0." +:+ zeros (Z.to_nat (- decpt)) +:+ digits
       else if (n <=? decpt)%Z then
         digits +:+ zeros (Z.to_nat (decpt - n)) +:+ ".0"
       else
         String.substring 0 (Z.to_nat decpt) digits +:+ "."
         +:+ String.substring (Z.to_nat decpt) (Z.to_nat (n - decpt)) digits)
  end.

(** The text of each element; a missing value is written empty. *)
Definition column_text (col : column) : list string :=
  match col with
  | ObjectCol v => map (fun c => match c with Str s => s | NaN => "" end) v
  | Int64Col v => map Py.string_of_Z v
  | Float64Col v => map (fun x => match x with FNaN => "" | _ => repr_float x end) v
  | BoolCol v =>
      map (fun o : option bool =>
             match o with
             | Some true => "True"
             | Some false => "False"
             | None => ""
             end) v
  end.

(** [csv.QUOTE_MINIMAL]: the delimiter, the quote character and the
    characters of the line terminator. *)
Definition needs_quotes (s : string) : bool :=
  contains_char COMMA s || contains_char QUOTE s || contains_char LF s.

Fixpoint double_quotes (s : string) : string :=
  match s with
  | EmptyString => EmptyString
  | String a r =>
      if Ascii.eqb a QUOTE then String a (String a (double_quotes r))
      else String a (double_quotes r)
  end.

Definition quote_field (s : string) : string :=
  if needs_quotes s
  then String QUOTE (double_quotes s) +:+ String QUOTE EmptyString
  else s.

Definition writerow (row : list string) : string :=
  match row with
  | [EmptyString] => String QUOTE (String QUOTE (String LF EmptyString))
  | _ => Text.join "," (map quote_field row) +:+ String LF EmptyString
  end.

Definition nrows (df : DataFrame) : nat :=
  match df with
  | [] => 0
  | (_, col) :: _ => List.length (column_text col)
  end.

Definition to_csv (df : DataFrame) : string :=
  writerow (columns df)
  +:+ String.concat ""
        (map (fun i => writerow (map (fun nc : string * column =>
                                        nth i (column_text (snd nc)) "") df))
           (seq 0 (nrows df))).

End Pandas.

(** ** The outside world and the monad of a run *)

Module Runtime.

Record request := {
  req_url : string;
  req_json : Py.value;
  req_headers : list (string * string)
}.

Record response := {
  status_code : Z;
  text : string
}.

(** Directories and regular files, by path. *)
Record filesystem := {
  dirs : gset string;
  files : gmap string string
}.

(** What a run is started in.  [json_load path] is the outcome of
    [with path.open("r", encoding="utf-8") as f: json.load(f)] and
    [post req] that of [requests.post]: a value, or the exception raised. *)
Record world := {
  json_load : string -> Py.exn + Py.value;
  post : request -> Py.exn + response;
  cwd : string;
  disk : filesystem
}.

(** The effects a run asks for, in order. *)
Inductive event :=
| Post (req : request)
| Mkdir (path : string)
| WriteFile (path : string) (content : string)
| Stdout (line : string).

Record state := {
  fs : filesystem;
  trace : list event
}.

(** The numbered sections of the scripts; an uncaught exception is
    recorded with the section that raised it. *)
Inductive script_section :=
| AtLoad     (* 1. load the query object and table ID *)
| AtFetch    (* 3. fetch the data *)
| AtParse.   (* 4. parse according to response format *)

Record failure := {
  raised_in : script_section;
  raised : Py.exn
}.

(** The error taxonomy of the specification, read on a failure. *)
Definition ConfigError (f : failure) : Prop := raised_in f = AtLoad.
Definition TransportError (f : failure) : Prop := raised_in f = AtFetch.
Definition SchemaError (f : failure) : Prop :=
  raised_in f = AtParse /\ exists missing, raised f = Py.KeyError missing.

Definition prog (A : Type) : Type := state -> (failure + A) * state.

Definition ret {A} (x : A) : prog A := fun st => (inr x, st).

Definition bind {A B} (m : prog A) (k : A -> prog B) : prog B :=
  fun st =>
    match m st with
    | (inl f, st') => (inl f, st')
    | (inr x, st') => k x st'
    end.

(** A pure step of section [s]: its value, or its exception. *)
Definition eval {A} (s : script_section) (r : Py.exn + A) : prog A :=
  fun st =>
    match r with
    | inl e => (inl {| raised_in := s; raised := e |}, st)
    | inr x => (inr x, st)
    end.

Definition emit (ev : event) (st : state) : state :=
  {| fs := fs st; trace := trace st ++ [ev] |}.

Notation "x <- m ;; k" := (bind m (fun x => k))
  (at level 100, m at next level, k at level 200, right associativity).
Notation "m ;;; k" := (bind m (fun _ => k))
  (at level 100, k at level 200, right associativity).

(** Exceptions inside an expression. *)
Definition and_then {A B} (r : Py.exn + A) (k : A -> Py.exn + B) : Py.exn + B :=
  match r with
  | inl e => inl e
  | inr x => k x
  end.

(** [requests.post(url, json=payload, headers=headers)] *)
Definition requests_post (w : world) (url : string) (payload : Py.value)
    (headers : list (string * string)) : prog response :=
  fun st =>
    let req := {| req_url := url; req_json := payload; req_headers := headers |} in
    eval AtFetch (post w req) (emit (Post req) st).

(** [r.raise_for_status()]: client and server errors raise. *)
Definition raise_for_status (r : response) : prog unit :=
  if ((400 <=? status_code r) && (status_code r <? 600))%Z
  then eval AtFetch (inl (Py.HTTPError (status_code r)))
  else ret tt.

(** [pathlib]: joining with an absolute path gives that path. *)
Definition is_absolute (p : string) : bool :=
  match p with
  | String "/" _ => true
  | _ => false
  end.

Definition truediv (dir name : string) : string :=
  if is_absolute name then name else dir +:+ "/" +:+ name.

Definition resolve (w : world) (p : string) : string :=
  if is_absolute p then p else cwd w +:+ "/" +:+ p.

Definition mkdir_fs (p : string) (d : filesystem) : filesystem :=
  {| dirs := {[ p ]} ∪ dirs d; files := files d |}.

Definition write_fs (p content : string) (d : filesystem) : filesystem :=
  {| dirs := dirs d; files := <[ p := content ]> (files d) |}.

(** [p.mkdir(parents=True, exist_ok=True)] *)
Definition mkdir (p : string) : prog unit :=
  fun st => (inr tt, {| fs := mkdir_fs p (fs st); trace := trace st ++ [Mkdir p] |}).

(** Opening [p] for writing and writing [content]; a path with a NUL
    character is refused by [open] before anything is written. *)
Definition write_file (p content : string) : prog unit :=
  if Text.contains_char "000" p then eval AtParse (inl Py.ValueError)
  else
    fun st =>
      (inr tt, {| fs := write_fs p content (fs st);
                  trace := trace st ++ [WriteFile p content] |}).

Definition print (line : string) : prog unit :=
  fun st => (inr tt, emit (Stdout line) st).

(** [payload.get("response", {}).get("format", "")] and its [.lower()] *)
Definition declared_format (payload : Py.value) : Py.exn + Py.value :=
  and_then (Py.get payload "response" (Py.Dict []))
    (fun response => Py.get response "format" (Py.Str "")).

Definition response_format (payload : Py.value) : Py.exn + Py.value :=
  and_then (declared_format payload) Py.lower.

(** [series.str.replace(pat, "", regex=True, flags=...)]; a pattern
    outside the modelled fragment of [re] is reported as an error. *)
Definition str_replace (pat : string) (ic : bool) (v : list Pandas.cell)
  : Py.exn + list Pandas.cell :=
  match Re.compile pat with
  | Some items => inr (Pandas.str_map (Re.sub_scan ic items "" 0 true) v)
  | None => inl (Py.Raised "re.error")
  end.

Definition run (main : world -> prog unit) (w : world) : (failure + unit) * state :=
  main w {| fs := disk w; trace := [] |}.

(** The configuration at [config_path] holds a query object and a table
    identifier. *)
Definition loaded (config_path : string) (w : world) (payload table_id : Py.value)
  : Prop :=
  exists cfg,
    json_load w config_path = inr cfg
    /\ Py.getitem cfg "queryObj" = inr payload
    /\ Py.getitem cfg "tableIdForQuery" = inr table_id.

(** The POST of [req] is answered by [r], and [raise_for_status] lets
    [r] through. *)
Definition answered (w : world) (req : request) (r : response) : Prop :=
  post w req = inr r
  /\ ((400 <=? status_code r) && (status_code r <? 600))%Z = false.

End Runtime.

(** ** [1_SCBdirect_estimate.py] *)

Module DirectEstimate.
Import Runtime.

Definition config_path : string := "data/directEstimate.json".

Definition url (table_id : Py.value) : string :=
  "https://api.scb.se/OV0104/v1/doris/en/ssd/START/AM/AM0401/AM0401N/"
  +:+ Py.str table_id.

Definition headers : list (string * string) := [("Content-Type", "application/json")].

Definition data_dir : string := "data".

(** The cleaning of the ['County'] names: [.str.replace(r"^\d+\s+", "")],
    [.str.replace(r"\scounty$", "")], [.str.strip()]. *)
Definition clean_county (county : list Pandas.cell) : Py.exn + list Pandas.cell :=
  and_then (str_replace "^\d+\s+" false county) (fun county =>
  and_then (str_replace "\scounty$" false county) (fun county =>
  inr (Pandas.str_map Text.strip county))).

(** The [csv] branch up to the cleaned frame. *)
Definition csv_normalizer (text : string) : Py.exn + Pandas.DataFrame :=
  and_then (Pandas.read_csv text) (fun df =>
  and_then
    (Pandas.getitem_list
       (Pandas.rename
          [ ("region", "County");
            ("Percent 2025K1", "Percent_2025K1");
            ("Margin of error ± percent 2025K1", "Percent_2025K1_me") ] df)
       ["County"; "Percent_2025K1"; "Percent_2025K1_me"]) (fun df_selected =>
  and_then (and_then (Pandas.getitem df_selected "County") Pandas.str) (fun county =>
  and_then (clean_county county) (fun cleaned =>
  inr (Pandas.setitem df_selected "County" (Pandas.ObjectCol cleaned)))))).

Definition main (w : world) : prog unit :=
  (* 1. Load the Query Object and Table ID *)
  cfg <- eval AtLoad (json_load w config_path) ;;
  payload <- eval AtLoad (Py.getitem cfg "queryObj") ;;
  table_id <- eval AtLoad (Py.getitem cfg "tableIdForQuery") ;;
  (* 3. Fetch the Data *)
  r <- requests_post w (url table_id) payload headers ;;
  raise_for_status r ;;;
  (* 4. Parse According to Response Format *)
  fmt <- eval AtParse (response_format payload) ;;
  mkdir data_dir ;;;
  if Py.eq_str fmt "csv" then
    df_selected <- eval AtParse (csv_normalizer (text r)) ;;
    let output_filename := "direct_estimates.csv" in
    let out_csv := truediv data_dir output_filename in
    write_file out_csv (Pandas.to_csv df_selected) ;;;
    print ("✅ Data saved to " +:+ resolve w out_csv)
  else if Py.eq_str fmt "px" then
    let output_filename := Py.str table_id +:+ ".px" in
    let out_px := truediv data_dir output_filename in
    write_file out_px (text r) ;;;
    print ("✅ PC-Axis file saved to " +:+ resolve w out_px)
  else
    print "⚠️ Response format not recognized. Here is the raw text:" ;;;
    print (text r).

(** The request of a run, and a run that gets its answer. *)
Definition request_for (payload table_id : Py.value) : request :=
  {| req_url := url table_id; req_json := payload; req_headers := headers |}.

Definition fetched (w : world) (payload table_id : Py.value) (r : response) : Prop :=
  loaded config_path w payload table_id
  /\ answered w (request_for payload table_id) r.

End DirectEstimate.

(** ** [2_SCBpopDensity.py] *)

Module PopDensity.
Import Runtime.

Definition config_path : string := "data/popdensity.json".

Definition url (table_id : Py.value) : string :=
  "https://api.scb.se/OV0104/v1/doris/en/ssd/START/BE/BE0101/BE0101C/"
  +:+ Py.str table_id.

Definition headers : list (string * string) := [("Content-Type", "application/json")].

(** The cleaning of the ['County'] names: [.str.replace(r"^\d+\s+", "")],
    [.str.replace(r"\scounty$", "", flags=re.IGNORECASE)], [.str.strip()]. *)
Definition clean_county (county : list Pandas.cell) : Py.exn + list Pandas.cell :=
  and_then (str_replace "^\d+\s+" false county) (fun county =>
  and_then (str_replace "\scounty$" true county) (fun county =>
  inr (Pandas.str_map Text.strip county))).

(** The [csv] branch up to the cleaned frame. *)
Definition csv_normalizer (text : string) : Py.exn + Pandas.DataFrame :=
  and_then (Pandas.read_csv text) (fun df =>
  and_then
    (Pandas.getitem_list
       (Pandas.rename
          [ ("region", "County");
            ("Population density per sq. km 2024", "PopDensity_2024") ] df)
       ["County"; "PopDensity_2024"]) (fun df_selected =>
  and_then (and_then (Pandas.getitem df_selected "County") Pandas.str) (fun county =>
  and_then (clean_county county) (fun cleaned =>
  inr (Pandas.setitem df_selected "County" (Pandas.ObjectCol cleaned)))))).

Definition main (w : world) : prog unit :=
  (* 1. Load the query object and table ID from disk *)
  cfg <- eval AtLoad (json_load w config_path) ;;
  payload <- eval AtLoad (Py.getitem cfg "queryObj") ;;
  table_id <- eval AtLoad (Py.getitem cfg "tableIdForQuery") ;;
  (* 3. Fetch the data *)
  r <- requests_post w (url table_id) payload headers ;;
  raise_for_status r ;;;
  (* 4. Parse according to response format *)
  fmt <- eval AtParse (response_format payload) ;;
  if Py.eq_str fmt "csv" then
    (* 5. Handle CSV response *)
    df_selected <- eval AtParse (csv_normalizer (text r)) ;;
    let data_dir := "data" in
    mkdir data_dir ;;;
    let output_filename := "popdensity.csv" in
    let out_csv := truediv data_dir output_filename in
    write_file out_csv (Pandas.to_csv df_selected) ;;;
    print ("Data saved to " +:+ resolve w out_csv)
  else if Py.eq_str fmt "px" then
    let data_dir := "data" in
    mkdir data_dir ;;;
    let output_filename := Py.str table_id +:+ ".px" in
    let out_px := truediv data_dir output_filename in
    write_file out_px (text r) ;;;
    print ("PC-Axis file saved to " +:+ resolve w out_px)
  else
    print "Response format not recognized. Here's the raw text:" ;;;
    print (text r).

(** The request of a run, and a run that gets its answer. *)
Definition request_for (payload table_id : Py.value) : request :=
  {| req_url := url table_id; req_json := payload; req_headers := headers |}.

Definition fetched (w : world) (payload table_id : Py.value) (r : response) : Prop :=
  loaded config_path w payload table_id
  /\ answered w (request_for payload table_id) r.

End PopDensity.

(** ** The region-name cleaning, in the words of the specification *)

Module Cleaning.
Import Text.

(** "Strip a leading run of digits followed by whitespace." *)
Definition strip_leading_code (s : string) : string :=
  let '(code_digits, r) := span is_digit s in
  let '(blanks, name) := span is_space r in
  if non_empty code_digits && non_empty blanks then name else s.

Definition same_word (ci : bool) (a b : string) : bool :=
  if ci then String.eqb (lower a) (lower b) else String.eqb a b.

(** [s] is the qualifier: one white-space character and the word
    ["county"], at the very end or before a final newline.  The result
    is what stays of it. *)
Definition qualifier_tail (ci : bool) (s : string) : option string :=
  match s with
  | String w t =>
      let word := String.substring 0 6 t in
      let rest := String.substring 6 (String.length t - 6) t in
      if is_space w && same_word ci word "county"
         && (String.eqb rest "" || String.eqb rest (String "010" ""))
      then Some rest
      else None
  | EmptyString => None
  end.

(** "Strip a trailing literal qualifier word"; [ci] tells whether the
    word is compared without regard to case. *)
Fixpoint strip_trailing_word (ci : bool) (s : string) : string :=
  match qualifier_tail ci s with
  | Some rest => rest
  | None =>
      match s with
      | EmptyString => EmptyString
      | String a s' => String a (strip_trailing_word ci s')
      end
  end.

(** The three steps in the order of the specification. *)
Definition spec_clean (ci : bool) (s : string) : string :=
  strip (strip_trailing_word ci (strip_leading_code s)).

(** The two patterns as [re.compile] reads them. *)
Definition code_items : list Re.item := [Re.Bol; Re.Plus Re.Digit; Re.Plus Re.Space].

Definition county_items : list Re.item :=
  [ Re.One Re.Space; Re.One (Re.Lit "c"); Re.One (Re.Lit "o"); Re.One (Re.Lit "u");
    Re.One (Re.Lit "n"); Re.One (Re.Lit "t"); Re.One (Re.Lit "y"); Re.Eol ].

(** The length of what [\s+] and [^\d+\s+] match at the head of [s]. *)
Definition blanks_then_end (s : string) : option nat :=
  let '(ws, _) := span is_space s in
  if non_empty ws then Some (String.length ws) else None.

Definition code_prefix (s : string) : option nat :=
  let '(ds, r) := span is_digit s in
  if non_empty ds
  then option_map (Nat.add (String.length ds)) (blanks_then_end r)
  else None.

End Cleaning.

(** ** The two pipelines side by side *)

Module Pipelines.
Import Runtime.

Inductive pipeline :=
| direct_estimate
| population_density.

Definition main (p : pipeline) : world -> prog unit :=
  match p with
  | direct_estimate => DirectEstimate.main
  | population_density => PopDensity.main
  end.

Definition config_path (p : pipeline) : string :=
  match p with
  | direct_estimate => DirectEstimate.config_path
  | population_density => PopDensity.config_path
  end.

Definition request_for (p : pipeline) : Py.value -> Py.value -> request :=
  match p with
  | direct_estimate => DirectEstimate.request_for
  | population_density => PopDensity.request_for
  end.

Definition fetched (p : pipeline) : world -> Py.value -> Py.value -> response -> Prop :=
  match p with
  | direct_estimate => DirectEstimate.fetched
  | population_density => PopDensity.fetched
  end.

Definition csv_normalizer (p : pipeline) : string -> Py.exn + Pandas.DataFrame :=
  match p with
  | direct_estimate => DirectEstimate.csv_normalizer
  | population_density => PopDensity.csv_normalizer
  end.

(** The source columns with their new labels, and the columns kept. *)
Definition renaming (p : pipeline) : list (string * string) :=
  match p with
  | direct_estimate =>
      [ ("region", "County");
        ("Percent 2025K1", "Percent_2025K1");
        ("Margin of error ± percent 2025K1", "Percent_2025K1_me") ]
  | population_density =>
      [ ("region", "County");
        ("Population density per sq. km 2024", "PopDensity_2024") ]
  end.

Definition selected (p : pipeline) : list string := map snd (renaming p).

Definition ignores_case (p : pipeline) : bool :=
  match p with
  | direct_estimate => false
  | population_density => true
  end.

Definition output_csv (p : pipeline) : string :=
  match p with
  | direct_estimate => "data/direct_estimates.csv"
  | population_density => "data/popdensity.csv"
  end.

(** The run reaches the dispatch with the format string [fmt]. *)
Definition dispatches (p : pipeline) (w : world) (payload table_id : Py.value)
    (r : response) (fmt : string) : Prop :=
  fetched p w payload table_id r
  /\ response_format payload = inr (Py.Str fmt).

(** A configuration that cannot be used: the file is missing or is not
    JSON ([json_load] raises), or what it holds lacks a required field. *)
Definition has_field (cfg : Py.value) (k : string) : bool :=
  match cfg with
  | Py.Dict items =>
      match Py.lookup k items with
      | Some _ => true
      | None => false
      end
  | _ => false
  end.

Definition config_defect (p : pipeline) (w : world) : Prop :=
  (exists e, json_load w (config_path p) = inl e)
  \/ (exists cfg, json_load w (config_path p) = inr cfg
                  /\ has_field cfg "queryObj" && has_field cfg "tableIdForQuery" = false).

(** The POST fails: the transport raises, or the status is a client or
    server error. *)
Definition fetch_fails (w : world) (req : request) : Prop :=
  (exists e, post w req = inl e)
  \/ (exists r, post w req = inr r /\ (400 <= status_code r < 600)%Z).

(** No file is written by the run that ends in [st]. *)
Definition writes_nothing (w : world) (st : state) : Prop :=
  files (fs st) = files (disk w)
  /\ forall path content, ~ In (WriteFile path content) (trace st).


End Pipelines.

(** ** Concrete worlds *)

Module Scenarios.
Import Runtime.

Definition LF : string := String "010" "".
Definition CRLF : string := String "013" LF.
Definition QUOTE : string := String "034" "".

(** A query object that asks for the given response format, and the
    configuration file around it. *)
Definition query_object (format : Py.value) : Py.value :=
  Py.Dict [ ("query", Py.List []); ("response", Py.Dict [("format", format)]) ].

Definition config_file (format table_id : Py.value) : Py.value :=
  Py.Dict [ ("queryObj", query_object format); ("tableIdForQuery", table_id) ].

(** A world in which the configuration holds [cfg] and the server
    answers [r]; the directory of the configuration exists. *)
Definition world_with (cfg : Py.value) (r : response) : world :=
  {| json_load := fun _ => inr cfg;
     post := fun _ => inr r;
     cwd := "/srv/sae";
     disk := {| dirs := {[ "data" ]}; files := ∅ |} |}.

Definition ok (body : string) : response := {| status_code := 200; text := body |}.

(** The response of the specification's CSV scenario. *)
Definition estimates_csv : string :=
  "region,Percent 2025K1,Margin of error ± percent 2025K1" +:+ LF +:+
  "01 Stockholm county,45.2,1.1" +:+ LF.

Definition estimates_out : string :=
  "County,Percent_2025K1,Percent_2025K1_me" +:+ LF +:+
  "Stockholm,45.2,1.1" +:+ LF.

Definition w_csv : world :=
  world_with (config_file (Py.Str "csv") (Py.Str "AM0401N1")) (ok estimates_csv).





(** A table without the source column [region] whose first column is
    already called [County]. *)
Definition county_header_csv : string :=
  "County,Percent 2025K1,Margin of error ± percent 2025K1" +:+ LF +:+
  "01 Stockholm county,45.2,1.1" +:+ LF.

Definition w_county_header : world :=
  world_with (config_file (Py.Str "csv") (Py.Str "AM0401N1")) (ok county_header_csv).

(** A table without any region column. *)
Definition no_region_csv : string :=
  "area,Percent 2025K1,Margin of error ± percent 2025K1" +:+ LF +:+
  "01 Stockholm county,45.2,1.1" +:+ LF.

Definition w_no_region : world :=
  world_with (config_file (Py.Str "csv") (Py.Str "AM0401N1")) (ok no_region_csv).

Definition px_body : string :=
  "AXIS-VERSION=2013;" +:+ LF +:+ "MATRIX=BE0101N1;" +:+ LF.

Definition w_px : world :=
  world_with (config_file (Py.Str "px") (Py.Str "BE0101N1")) (ok px_body).

(** A table identifier that is an absolute path. *)
Definition w_absolute : world :=
  world_with (config_file (Py.Str "px") (Py.Str "/tmp/x")) (ok px_body).

Definition w_xml : world :=
  world_with (config_file (Py.Str "xml") (Py.Str "BE0101N1")) (ok "<table/>").

(** A query object that declares no format, and one that declares
    [null]. *)
Definition query_without_format : list (string * Py.value) := [("query", Py.List [])].

Definition w_no_format : world :=
  world_with
    (Py.Dict [ ("queryObj", Py.Dict query_without_format);
               ("tableIdForQuery", Py.Str "BE0101N1") ])
    (ok "<table/>").

Definition w_null_format : world :=
  world_with (config_file Py.None_ (Py.Str "AM0401N1")) (ok estimates_csv).

(** A configuration without [tableIdForQuery]. *)
Definition w_no_table_id : world :=
  world_with (Py.Dict [("queryObj", Py.Dict [("query", Py.List [])])]) (ok estimates_csv).

(** Answers with status 404 and with status 300. *)
Definition w_not_found : world :=
  world_with (config_file (Py.Str "csv") (Py.Str "AM0401N1"))
    {| status_code := 404; text := "Not Found" |}.

Definition multiple_choices : response := {| status_code := 300; text := px_body |}.

Definition w_multiple_choices : world :=
  world_with (config_file (Py.Str "px") (Py.Str "BE0101N1")) multiple_choices.


End Scenarios.

(** ** Vocabulary for further properties of the scripts *)

Module Properties.
Import Runtime.

(** The same world on another disk, and the world a run leaves behind:
    the same configuration file and the same answers of the server, on
    the file system as the run left it. *)
Definition with_disk (w : world) (d : filesystem) : world :=
  {| json_load := json_load w; post := post w; cwd := cwd w; disk := d |}.

Definition world_after (w : world) (st : state) : world := with_disk w (fs st).

(** The same world with a server that answers [r]. *)
Definition with_response (w : world) (r : response) : world :=
  {| json_load := json_load w; post := fun _ => inr r; cwd := cwd w; disk := disk w |}.

(** Loading the configuration raises [e]: reading the file does, or one
    of the two subscripts on what the file holds. *)
Definition load_raises (config_path : string) (w : world) (e : Py.exn) : Prop :=
  json_load w config_path = inl e
  \/ exists cfg,
       json_load w config_path = inr cfg
       /\ (Py.getitem cfg "queryObj" = inl e
           \/ exists payload,
                Py.getitem cfg "queryObj" = inr payload
                /\ Py.getitem cfg "tableIdForQuery" = inl e).

(** The ways a run can end after its request: what follows the request
    in the trace, and what the run has done to the disk. *)
Definition after_request (rest : list event) (T : filesystem -> filesystem) : Prop :=
  (rest = [] /\ forall d, T d = d)
  \/ (exists l1 l2, rest = [Stdout l1; Stdout l2] /\ forall d, T d = d)
  \/ (rest = [Mkdir "data"] /\ forall d, T d = mkdir_fs "data" d)
  \/ (exists l1 l2,
        rest = [Mkdir "data"; Stdout l1; Stdout l2]
        /\ forall d, T d = mkdir_fs "data" d)
  \/ (exists path content msg,
        rest = [Mkdir "data"; WriteFile path content; Stdout msg]
        /\ forall d, T d = write_fs path content (mkdir_fs "data" d)).

(** A character of an empty line: a line break of either kind, a space
    or a tab. *)
Definition blank (c : ascii) : bool :=
  Ascii.eqb c Pandas.LF || Ascii.eqb c Pandas.CR || Pandas.IS_WHITESPACE c.

(** [part] occurs in [whole] as one piece. *)
Definition piece_of (part whole : string) : Prop :=
  exists before after, whole = before +:+ part +:+ after.

(** No letter of [A-Z]. *)
Definition no_capitals (s : string) : bool :=
  Text.all_chars (fun a => negb (Text.is_upper a)) s.

Definition without_capitals (c : Pandas.cell) : Prop :=
  match c with
  | Pandas.Str s => no_capitals s = true
  | Pandas.NaN => True
  end.


(** A fetched cell and the written one: a missing value stays missing,
    a written name is one piece of the fetched name. *)
Definition cell_piece (fetched written : Pandas.cell) : Prop :=
  match fetched, written with
  | Pandas.NaN, Pandas.NaN => True
  | Pandas.Str s, Pandas.Str s' => piece_of s' s
  | _, _ => False
  end.

(** The cleaning chain of each script. *)
Definition clean_county (p : Pipelines.pipeline)
  : list Pandas.cell -> Py.exn + list Pandas.cell :=
  match p with
  | Pipelines.direct_estimate => DirectEstimate.clean_county
  | Pipelines.population_density => PopDensity.clean_county
  end.

(** A cell and what the cleaning makes of it: a missing value stays
    missing, a name becomes [f] of the name. *)
Definition cell_cleaned (f : string -> string) (fetched written : Pandas.cell) : Prop :=
  match fetched, written with
  | Pandas.NaN, Pandas.NaN => True
  | Pandas.Str s, Pandas.Str s' => s' = f s
  | _, _ => False
  end.

(** A selected column and the column written for it: the same label;
    under ['County'] the cleaned strings, elsewhere the same data. *)
Definition column_written (f : string -> string)
    (selected written : string * Pandas.column) : Prop :=
  fst written = fst selected
  /\ if String.eqb (fst selected) "County"
     then exists v v',
            snd selected = Pandas.ObjectCol v
            /\ snd written = Pandas.ObjectCol v'
            /\ Forall2 (cell_cleaned f) v v'
     else snd written = snd selected.

(** A response whose region column holds codes only, and a response of
    empty lines. *)
Definition codes_csv : string :=
  "region,Percent 2025K1,Margin of error ± percent 2025K1" +:+ Scenarios.LF +:+
  "01,45.2,1.1" +:+ Scenarios.LF +:+
  "03,40.0,1.3" +:+ Scenarios.LF.

Definition w_codes : world :=
  Scenarios.world_with
    (Scenarios.config_file (Py.Str "csv") (Py.Str "AM0401N1")) (Scenarios.ok codes_csv).

Definition blank_body : string :=
  Scenarios.LF +:+ "  " +:+ Scenarios.CRLF +:+ Scenarios.LF.

Definition w_blank : world :=
  Scenarios.world_with
    (Scenarios.config_file (Py.Str "csv") (Py.Str "BE0101U1")) (Scenarios.ok blank_body).

(** A response with a missing region name, and the frames read from it
    and written for it. *)
Definition gap_csv : string :=
  "region,Population density per sq. km 2024" +:+ Scenarios.LF +:+
  "01 Stockholm county,377.2" +:+ Scenarios.LF +:+
  ",12.5" +:+ Scenarios.LF.

Definition gap_out : Pandas.DataFrame :=
  [ ("County", Pandas.ObjectCol [Pandas.Str "Stockholm"; Pandas.NaN]);
    ("PopDensity_2024",
     Pandas.Float64Col [Pandas.FDec false 3772 (-1); Pandas.FDec false 125 (-1)]) ].

(** A configuration without its query object. *)
Definition w_no_query : world :=
  Scenarios.world_with
    (Py.Dict [("tableIdForQuery", Py.Str "AM0401N1")]) (Scenarios.ok Scenarios.estimates_csv).

(** A configuration whose format is a number. *)
Definition w_numeric_format : world :=
  Scenarios.world_with
    (Scenarios.config_file (Py.Int 1) (Py.Str "AM0401N1")) (Scenarios.ok Scenarios.estimates_csv).

End Properties.

(** Hypotheses about a concrete world are settled by evaluation. *)
Ltac evaluated := cbn; repeat first [reflexivity | split | eexists].

(** ** The library model on small inputs *)

Module LibraryExamples.
Import Pandas.

Example repr_float_examples :
  map (fun t => option_map repr_float (parse_float t))
    ["45.2"; "1.10"; "100"; "1e16"; "0.0001"; "0.00001"; "-0"; "1.5E-7"; "x"]
  = [Some "45.2"; Some "1.1"; Some "100.0"; Some "1e+16"; Some "0.0001";
     Some "1e-05"; Some "-0.0"; Some "1.5e-07"; None].
Proof. vm_compute. reflexivity. Qed.

Example read_csv_example :
  read_csv ("a,b,c,a" +:+ String LF ("x y,1,2.50,TRUE" +:+ String LF (",2,,false" +:+ String LF "")))
  = inr [ ("a", ObjectCol [Str "x y"; NaN]);
          ("b", Int64Col [1%Z; 2%Z]);
          ("c", Float64Col [FDec false 25 (-1); FNaN]);
          ("a.1", BoolCol [Some true; Some false]) ].
Proof. vm_compute. reflexivity. Qed.

Example read_csv_quoted :
  read_csv ("a,b" +:+ Scenarios.LF
            +:+ Scenarios.QUOTE +:+ "x, " +:+ Scenarios.QUOTE +:+ Scenarios.QUOTE +:+ "y"
            +:+ Scenarios.QUOTE +:+ Scenarios.QUOTE +:+ Scenarios.QUOTE +:+ ",1"
            +:+ Scenarios.CRLF)
  = inr [ ("a", ObjectCol [Str ("x, " +:+ Scenarios.QUOTE +:+ "y" +:+ Scenarios.QUOTE)]);
          ("b", Int64Col [1%Z]) ].
Proof. vm_compute. reflexivity. Qed.

Example to_csv_example :
  to_csv [ ("a", ObjectCol [Str "x, y"; NaN]); ("b", Float64Col [FDec false 25 (-1); FNaN]) ]
  = "a,b" +:+ Scenarios.LF
    +:+ Scenarios.QUOTE +:+ "x, y" +:+ Scenarios.QUOTE +:+ ",2.5" +:+ Scenarios.LF
    +:+ "," +:+ Scenarios.LF.
Proof. vm_compute. reflexivity. Qed.

Example end_of_line_examples :
  map (Re.sub "\scounty$" false "")
    [ "a county" +:+ Scenarios.LF; "a county" +:+ Scenarios.LF +:+ Scenarios.LF;
      "Uppsala county "; "x" +:+ Scenarios.LF +:+ "county" ]
  = [ Some ("a" +:+ Scenarios.LF); Some ("a county" +:+ Scenarios.LF +:+ Scenarios.LF);
      Some "Uppsala county "; Some "x" ].
Proof. vm_compute. reflexivity. Qed.

Example quoting_examples :
  map writerow [ ["a" +:+ Scenarios.CRLF; "c"]; ["x, y"]; [""]; [""; ""]; [" a"] ]
  = [ Scenarios.QUOTE +:+ "a" +:+ Scenarios.CRLF +:+ Scenarios.QUOTE +:+ ",c" +:+ Scenarios.LF;
      Scenarios.QUOTE +:+ "x, y" +:+ Scenarios.QUOTE +:+ Scenarios.LF;
      Scenarios.QUOTE +:+ Scenarios.QUOTE +:+ Scenarios.LF;
      "," +:+ Scenarios.LF;
      " a" +:+ Scenarios.LF ].
Proof. vm_compute. reflexivity. Qed.

Example repr_examples :
  map Py.repr
    [ Py.Str "a'b"; Py.Str ("a" +:+ Scenarios.QUOTE +:+ "b");
      Py.List [Py.Int 1; Py.Str "a"; Py.None_; Py.Bool true; Py.Dict [("k", Py.Float "1.5")]] ]
  = [ Scenarios.QUOTE +:+ "a'b" +:+ Scenarios.QUOTE;
      "'a" +:+ Scenarios.QUOTE +:+ "b'";
      "[1, 'a', None, True, {'k': 1.5}]" ].
Proof. vm_compute. reflexivity. Qed.

Example sub_examples :
  map (Re.sub "^\d+\s+" false "") ["01 Stockholm county"; "1 2 x"; "12"; "a 1 b"]
  = [Some "Stockholm county"; Some "2 x"; Some "12"; Some "a 1 b"]
  /\ map (Re.sub "\scounty$" false "") ["Stockholm county"; "a County"; "county"; "a county b"]
     = [Some "Stockholm"; Some "a County"; Some "county"; Some "a county b"]
  /\ map (Re.sub "\scounty$" true "") ["Stockholm county"; "a County"; "a county" +:+ String LF ""]
     = [Some "Stockholm"; Some "a"; Some ("a" +:+ String LF "")].
Proof. vm_compute. repeat split. Qed.

End LibraryExamples.

(** * Proofs *)

Import Text Re Cleaning Runtime Pipelines Scenarios.

(** ** Text and the patterns *)

Lemma digit_not_space a : is_digit a = true -> is_space a = false.
Proof.
  destruct a as [[] [] [] [] [] [] [] []]; vm_compute; congruence.
Qed.


Lemma append_cons a h t : String a h +:+ t = String a (h +:+ t).
Proof. reflexivity. Qed.

Lemma span_app p s : fst (span p s) +:+ snd (span p s) = s.
Proof.
  induction s as [|a s IH]; simpl; [reflexivity|].
  destruct (p a); simpl; [|reflexivity].
  destruct (span p s) as [h t]; simpl in *. rewrite append_cons. congruence.
Qed.


Lemma plus_space_end ic s :
  match_here ic [Plus Space] false s = blanks_then_end s.
Proof.
  unfold blanks_then_end. simpl.
  induction s as [|a s IH]; simpl; [reflexivity|].
  destruct (is_space a) eqn:Ha; [|reflexivity].
  rewrite IH. destruct (span is_space s) as [ws r]; simpl.
  destruct ws; simpl; reflexivity.
Qed.

Lemma blanks_then_end_digit a s : is_digit a = true -> blanks_then_end (String a s) = None.
Proof.
  intros H. unfold blanks_then_end. simpl. now rewrite (digit_not_space _ H).
Qed.


Lemma plus_digit_blanks s :
  plus_then is_digit blanks_then_end s = code_prefix s.
Proof.
  unfold code_prefix.
  induction s as [|a s IH]; simpl; [reflexivity|].
  destruct (is_digit a) eqn:Ha; [|reflexivity].
  rewrite IH. destruct (span is_digit s) as [ds r] eqn:Hs; simpl.
  destruct ds as [|d ds]; simpl.
  - assert (r = s) as ->.
    { pose proof (span_app is_digit s) as E. rewrite Hs in E. simpl in E. auto. }
    destruct (blanks_then_end s); reflexivity.
  - assert (exists s', s = String d s' /\ is_digit d = true) as (s' & -> & Hd).
    { destruct s as [|b s]; simpl in Hs; [discriminate|].
      destruct (is_digit b) eqn:Hb; [|discriminate].
      destruct (span is_digit s); inversion Hs; subst. eauto. }
    destruct (blanks_then_end r); simpl; [reflexivity|].
    now rewrite blanks_then_end_digit.
Qed.

Lemma append_assoc a b c : (a +:+ b) +:+ c = a +:+ (b +:+ c).
Proof. induction a; [reflexivity|]. rewrite !append_cons. congruence. Qed.

Lemma length_append a b : String.length (a +:+ b) = String.length a + String.length b.
Proof. induction a; [reflexivity|]. rewrite append_cons. simpl. congruence. Qed.

Lemma plus_then_ext p p' k k' s :
  (forall a, p a = p' a) -> (forall t, k t = k' t) ->
  plus_then p k s = plus_then p' k' s.
Proof.
  intros Hp Hk. induction s as [|a s IH]; simpl; [reflexivity|].
  rewrite Hp, IH, Hk. reflexivity.
Qed.


Lemma compile_code : compile "^\d+\s+" = Some code_items.
Proof. reflexivity. Qed.

Lemma compile_county : compile "\scounty$" = Some county_items.
Proof. reflexivity. Qed.

Lemma match_code ic s : match_here ic code_items true s = code_prefix s.
Proof.
  rewrite <- plus_digit_blanks. cbn [match_here code_items].
  apply plus_then_ext; [reflexivity|]. intros t. apply plus_space_end.
Qed.

Lemma sub_scan_skip ic items repl h t :
  sub_scan ic items repl (String.length h) false (h +:+ t)
  = sub_scan ic items repl 0 false t.
Proof.
  induction h as [|a h IH]; [reflexivity|].
  rewrite append_cons. simpl. exact IH.
Qed.

Lemma sub_scan_no_match ic items repl s :
  (forall t, match_here ic items false t = None) ->
  sub_scan ic items repl 0 false s = s.
Proof.
  intros H. induction s as [|a s IH]; simpl; rewrite H; [reflexivity|].
  now rewrite IH.
Qed.

Lemma sub_code_spec ic s :
  sub_scan ic code_items "" 0 true s = strip_leading_code s.
Proof.
  unfold strip_leading_code.
  assert (Hm := match_code ic s). unfold code_prefix, blanks_then_end in Hm.
  pose proof (span_app is_digit s) as E1.
  destruct (span is_digit s) as [ds r]. simpl in E1.
  pose proof (span_app is_space r) as E2.
  destruct (span is_space r) as [ws name]. simpl in E2.
  assert (Hcopy : forall t, sub_scan ic code_items "" 0 false t = t).
  { intros t. apply sub_scan_no_match. reflexivity. }
  destruct s as [|a s].
  - simpl. destruct ds; [|discriminate]. reflexivity.
  - cbn [sub_scan]. rewrite Hm.
    destruct ds as [|d ds]; cbn [non_empty andb].
    + now rewrite Hcopy.
    + destruct ws as [|b ws]; cbn [non_empty option_map].
      * now rewrite Hcopy.
      * cbn [String.length Nat.add].
        rewrite append_cons in E1. injection E1 as -> E1. subst s r.
        change (S (String.length ws)) with (String.length (String b ws)).
        rewrite <- append_assoc, <- length_append.
        rewrite sub_scan_skip. now rewrite Hcopy.
Qed.

Lemma match_county ic bos s :
  match_here ic county_items bos s
  = match qualifier_tail ic s with Some _ => Some 7 | None => None end.
Proof.
  unfold qualifier_tail, same_word, county_items.
  destruct s as [|w [|c1 [|c2 [|c3 [|c4 [|c5 [|c6 [|c7 [|c8 s]]]]]]]]];
    destruct ic; cbn -[lower_char is_space Ascii.eqb];
    repeat match goal with
           | |- context [is_space ?a] => destruct (is_space a); cbn -[lower_char is_space Ascii.eqb]
           | |- context [Ascii.eqb ?a ?b] => destruct (Ascii.eqb a b); cbn -[lower_char is_space Ascii.eqb]
           end; try reflexivity.
Qed.

Lemma strip_trailing_word_eq ci s :
  strip_trailing_word ci s
  = match qualifier_tail ci s with
    | Some rest => rest
    | None =>
        match s with
        | EmptyString => EmptyString
        | String a s' => String a (strip_trailing_word ci s')
        end
    end.
Proof. destruct s; reflexivity. Qed.

Lemma substring_all s : String.substring 0 (String.length s) s = s.
Proof. induction s as [|a s IH]; [reflexivity|]. cbn. now rewrite IH. Qed.

Lemma qualifier_tail_shape ci a s rest :
  qualifier_tail ci (String a s) = Some rest ->
  exists word, s = word +:+ rest /\ String.length word = 6
               /\ (rest = "" \/ rest = String "010" "").
Proof.
  unfold qualifier_tail.
  set (word := String.substring 0 6 s).
  set (r := String.substring 6 (String.length s - 6) s).
  destruct (is_space a); [|discriminate].
  destruct (same_word ci word "county") eqn:Hw; [|discriminate].
  cbn [andb].
  intros H.
  assert (Hr : rest = "" \/ rest = String "010" "").
  { destruct (String.eqb_spec r ""); [left; cbn in H; congruence|].
    destruct (String.eqb_spec r (String "010" "")); [right; cbn in H; congruence|].
    discriminate. }
  assert (r = rest) as <-.
  { destruct (String.eqb r "" || String.eqb r (String "010" "")); congruence. }
  exists word. split; [|split; [|exact Hr]].
  - subst word r.
    destruct s as [|c1 [|c2 [|c3 [|c4 [|c5 [|c6 s]]]]]]; try reflexivity.
    clear. cbn. rewrite Nat.sub_0_r, substring_all.
    assert (String.substring 0 0 s = "") as -> by (destruct s; reflexivity).
    reflexivity.
  - subst word. unfold same_word in Hw.
    destruct s as [|c1 [|c2 [|c3 [|c4 [|c5 [|c6 s]]]]]];
      try (exfalso; destruct ci; cbn -[lower_char Ascii.eqb] in Hw;
           repeat match type of Hw with
                  | context [Ascii.eqb ?x ?y] => destruct (Ascii.eqb x y); cbn -[lower_char Ascii.eqb] in Hw
                  end; discriminate).
    cbn. destruct s; reflexivity.
Qed.

Lemma sub_county_spec ic bos s :
  sub_scan ic county_items "" 0 bos s = strip_trailing_word ic s.
Proof.
  revert bos. induction s as [|a s IH]; intros bos.
  - cbn [sub_scan]. rewrite match_county. reflexivity.
  - rewrite strip_trailing_word_eq. cbn [sub_scan]. rewrite match_county.
    destruct (qualifier_tail ic (String a s)) as [rest|] eqn:Q.
    + apply qualifier_tail_shape in Q as (word & -> & Hlen & Hrest).
      replace 6 with (String.length word) by exact Hlen.
      rewrite sub_scan_skip.
      destruct Hrest as [-> | ->]; vm_compute; destruct ic; reflexivity.
    + now rewrite IH.
Qed.















(** ** The monad and the runs *)

Lemma bind_eval {A B} s (r : Py.exn + A) (k : A -> prog B) st :
  bind (eval s r) k st
  = match r with
    | inl e => (inl {| raised_in := s; raised := e |}, st)
    | inr x => k x st
    end.
Proof. destruct r; reflexivity. Qed.

Lemma bind_post {B} w url payload headers (k : response -> prog B) st :
  bind (requests_post w url payload headers) k st
  = let req := {| req_url := url; req_json := payload; req_headers := headers |} in
    match post w req with
    | inl e => (inl {| raised_in := AtFetch; raised := e |}, emit (Post req) st)
    | inr r => k r (emit (Post req) st)
    end.
Proof.
  unfold bind, requests_post, eval. cbn zeta.
  destruct (post w _); reflexivity.
Qed.

Lemma bind_raise_for_status {B} r (k : unit -> prog B) st :
  bind (raise_for_status r) k st
  = if ((400 <=? status_code r) && (status_code r <? 600))%Z
    then (inl {| raised_in := AtFetch; raised := Py.HTTPError (status_code r) |}, st)
    else k tt st.
Proof.
  unfold bind, raise_for_status.
  destruct ((400 <=? status_code r) && (status_code r <? 600))%Z; reflexivity.
Qed.

Lemma bind_mkdir {B} p (k : unit -> prog B) st :
  bind (mkdir p) k st
  = k tt {| fs := mkdir_fs p (fs st); trace := trace st ++ [Mkdir p] |}.
Proof. reflexivity. Qed.

Lemma bind_write_file {B} p content (k : unit -> prog B) st :
  bind (write_file p content) k st
  = if contains_char "000" p
    then (inl {| raised_in := AtParse; raised := Py.ValueError |}, st)
    else k tt {| fs := write_fs p content (fs st);
                 trace := trace st ++ [WriteFile p content] |}.
Proof.
  unfold bind, write_file. destruct (contains_char "000" p); reflexivity.
Qed.

Lemma bind_print {B} line (k : unit -> prog B) st :
  bind (print line) k st = k tt (emit (Stdout line) st).
Proof. reflexivity. Qed.

Lemma run_print line st : print line st = (inr tt, emit (Stdout line) st).
Proof. reflexivity. Qed.

Lemma run_format_error p w payload table_id r e :
  fetched p w payload table_id r ->
  response_format payload = inl e ->
  run (main p) w
  = (inl {| raised_in := AtParse; raised := e |},
     {| fs := disk w; trace := [Post (request_for p payload table_id)] |}).
Proof.
  intros Hf He.
  destruct p; destruct Hf as [(cfg & Hc & Hq & Ht) [Hp Hs]];
    unfold run, main, config_path, request_for in *.
  - unfold DirectEstimate.main.
    rewrite bind_eval, Hc, bind_eval, Hq, bind_eval, Ht, bind_post. cbn zeta.
    unfold DirectEstimate.request_for in Hp.
    rewrite Hp, bind_raise_for_status, Hs, bind_eval, He. reflexivity.
  - unfold PopDensity.main.
    rewrite bind_eval, Hc, bind_eval, Hq, bind_eval, Ht, bind_post. cbn zeta.
    unfold PopDensity.request_for in Hp.
    rewrite Hp, bind_raise_for_status, Hs, bind_eval, He. reflexivity.
Qed.

Lemma run_unrecognized p w payload table_id r fmt :
  dispatches p w payload table_id r fmt ->
  fmt <> "csv" -> fmt <> "px" ->
  run (main p) w
  = (inr tt,
     match p with
     | direct_estimate =>
         {| fs := mkdir_fs "data" (disk w);
            trace := [ Post (request_for p payload table_id); Mkdir "data";
                       Stdout "⚠️ Response format not recognized. Here is the raw text:";
                       Stdout (text r) ] |}
     | population_density =>
         {| fs := disk w;
            trace := [ Post (request_for p payload table_id);
                       Stdout "Response format not recognized. Here's the raw text:";
                       Stdout (text r) ] |}
     end).
Proof.
  intros [Hf He] Hcsv Hpx.
  apply String.eqb_neq in Hcsv, Hpx.
  destruct p; destruct Hf as [(cfg & Hc & Hq & Ht) [Hp Hs]];
    unfold run, main, config_path, request_for in *.
  - unfold DirectEstimate.main.
    rewrite bind_eval, Hc, bind_eval, Hq, bind_eval, Ht, bind_post. cbn zeta.
    unfold DirectEstimate.request_for in Hp.
    rewrite Hp, bind_raise_for_status, Hs, bind_eval, He, bind_mkdir.
    cbn [Py.eq_str]. rewrite Hcsv, Hpx. reflexivity.
  - unfold PopDensity.main.
    rewrite bind_eval, Hc, bind_eval, Hq, bind_eval, Ht, bind_post. cbn zeta.
    unfold PopDensity.request_for in Hp.
    rewrite Hp, bind_raise_for_status, Hs, bind_eval, He.
    cbn [Py.eq_str]. rewrite Hcsv, Hpx. reflexivity.
Qed.

Lemma run_csv p w payload table_id r :
  dispatches p w payload table_id r "csv" ->
  run (main p) w
  = match csv_normalizer p (text r) with
    | inl e =>
        (inl {| raised_in := AtParse; raised := e |},
         match p with
         | direct_estimate =>
             {| fs := mkdir_fs "data" (disk w);
                trace := [Post (request_for p payload table_id); Mkdir "data"] |}
         | population_density =>
             {| fs := disk w; trace := [Post (request_for p payload table_id)] |}
         end)
    | inr df_selected =>
        (inr tt,
         {| fs := write_fs (output_csv p) (Pandas.to_csv df_selected)
                    (mkdir_fs "data" (disk w));
            trace := [ Post (request_for p payload table_id); Mkdir "data";
                       WriteFile (output_csv p) (Pandas.to_csv df_selected);
                       Stdout (match p with
                              | direct_estimate => "✅ Data saved to "
                              | population_density => "Data saved to "
                              end +:+ cwd w +:+ "/" +:+ output_csv p) ] |})
    end.
Proof.
  intros [Hf He].
  destruct p; destruct Hf as [(cfg & Hc & Hq & Ht) [Hp Hs]];
    unfold run, main, config_path, request_for, csv_normalizer in *.
  - unfold DirectEstimate.main.
    rewrite bind_eval, Hc, bind_eval, Hq, bind_eval, Ht, bind_post. cbn zeta.
    unfold DirectEstimate.request_for in Hp.
    rewrite Hp, bind_raise_for_status, Hs, bind_eval, He, bind_mkdir.
    cbn [Py.eq_str String.eqb Ascii.eqb Bool.eqb]. rewrite bind_eval.
    destruct (DirectEstimate.csv_normalizer (text r)); reflexivity.
  - unfold PopDensity.main.
    rewrite bind_eval, Hc, bind_eval, Hq, bind_eval, Ht, bind_post. cbn zeta.
    unfold PopDensity.request_for in Hp.
    rewrite Hp, bind_raise_for_status, Hs, bind_eval, He.
    cbn [Py.eq_str String.eqb Ascii.eqb Bool.eqb]. rewrite bind_eval.
    destruct (PopDensity.csv_normalizer (text r)); reflexivity.
Qed.

Lemma run_px p w payload table_id r :
  dispatches p w payload table_id r "px" ->
  run (main p) w
  = (let out_px := truediv "data" (Py.str table_id +:+ ".px") in
     if contains_char "000" out_px then
       (inl {| raised_in := AtParse; raised := Py.ValueError |},
        {| fs := mkdir_fs "data" (disk w);
           trace := [Post (request_for p payload table_id); Mkdir "data"] |})
     else
       (inr tt,
        {| fs := write_fs out_px (text r) (mkdir_fs "data" (disk w));
           trace := [ Post (request_for p payload table_id); Mkdir "data";
                      WriteFile out_px (text r);
                      Stdout (match p with
                             | direct_estimate => "✅ PC-Axis file saved to "
                             | population_density => "PC-Axis file saved to "
                             end +:+ resolve w out_px) ] |})).
Proof.
  intros [Hf He].
  destruct p; destruct Hf as [(cfg & Hc & Hq & Ht) [Hp Hs]];
    unfold run, main, config_path, request_for in *; cbn zeta.
  - unfold DirectEstimate.main.
    rewrite bind_eval, Hc, bind_eval, Hq, bind_eval, Ht, bind_post. cbn zeta.
    unfold DirectEstimate.request_for in Hp.
    rewrite Hp, bind_raise_for_status, Hs, bind_eval, He, bind_mkdir.
    cbn [Py.eq_str String.eqb Ascii.eqb Bool.eqb]. rewrite bind_write_file.
    unfold DirectEstimate.data_dir.
    destruct (contains_char "000" _); reflexivity.
  - unfold PopDensity.main.
    rewrite bind_eval, Hc, bind_eval, Hq, bind_eval, Ht, bind_post. cbn zeta.
    unfold PopDensity.request_for in Hp.
    rewrite Hp, bind_raise_for_status, Hs, bind_eval, He.
    cbn [Py.eq_str String.eqb Ascii.eqb Bool.eqb]. rewrite bind_mkdir, bind_write_file.
    destruct (contains_char "000" _); reflexivity.
Qed.

(** *** The normaliser *)

Lemma str_replace_code ic v :
  str_replace "^\d+\s+" ic v = inr (Pandas.str_map strip_leading_code v).
Proof.
  unfold str_replace. rewrite compile_code. f_equal.
  unfold Pandas.str_map. apply map_ext. intros [s|]; [|reflexivity].
  now rewrite sub_code_spec.
Qed.

Lemma str_replace_county ic v :
  str_replace "\scounty$" ic v = inr (Pandas.str_map (strip_trailing_word ic) v).
Proof.
  unfold str_replace. rewrite compile_county. f_equal.
  unfold Pandas.str_map. apply map_ext. intros [s|]; [|reflexivity].
  now rewrite sub_county_spec.
Qed.

Lemma str_map_map f g v :
  Pandas.str_map f (Pandas.str_map g v) = Pandas.str_map (fun s => f (g s)) v.
Proof.
  unfold Pandas.str_map. rewrite map_map. apply map_ext. now intros [s|].
Qed.

Lemma clean_county_spec p v :
  match p with
  | direct_estimate => DirectEstimate.clean_county v
  | population_density => PopDensity.clean_county v
  end = inr (Pandas.str_map (spec_clean (ignores_case p)) v).
Proof.
  destruct p; unfold DirectEstimate.clean_county, PopDensity.clean_county;
    rewrite str_replace_code; cbn [and_then];
    rewrite str_replace_county; cbn [and_then];
    rewrite !str_map_map; reflexivity.
Qed.



Lemma has_label_in (df : Pandas.DataFrame) l col label :
  In (l, col) df -> String.eqb l label = true -> Pandas.has_label df label = true.
Proof.
  intros Hin Hl. apply String.eqb_eq in Hl as ->.
  unfold Pandas.has_label, Pandas.columns. apply existsb_exists.
  exists label. split; [|apply String.eqb_refl].
  apply in_map_iff. now exists (label, col).
Qed.


Lemma getitem_list_missing df labels label :
  In label labels -> Pandas.has_label df label = false ->
  exists missing, Pandas.getitem_list df labels = inl (Py.KeyError missing).
Proof.
  intros Hin Hl. unfold Pandas.getitem_list.
  destruct (List.filter (fun l => negb (Pandas.has_label df l)) labels) as [|m ms] eqn:E.
  - assert (In label (List.filter (fun l => negb (Pandas.has_label df l)) labels)) as Hf.
    { apply filter_In. split; [exact Hin|]. now rewrite Hl. }
    rewrite E in Hf. destruct Hf.
  - eauto.
Qed.

Lemma rename_lacks p df src tgt :
  In (src, tgt) (renaming p) ->
  Pandas.has_label df src = false -> Pandas.has_label df tgt = false ->
  Pandas.has_label (Pandas.rename (renaming p) df) tgt = false.
Proof.
  intros Hin Hsrc Htgt.
  unfold Pandas.has_label, Pandas.columns in *.
  induction df as [|[n c] df IH]; [reflexivity|].
  cbn [map existsb fst] in Hsrc, Htgt.
  apply orb_false_iff in Hsrc as [Hs1 Hs2], Htgt as [Ht1 Ht2].
  cbn [Pandas.rename map existsb]. rewrite orb_false_iff. split.
  - apply String.eqb_neq in Hs1, Ht1.
    destruct p; cbn [renaming In] in Hin;
      repeat match goal with
             | H : _ \/ _ |- _ => destruct H as [H|H]
             | H : (_, _) = (_, _) |- _ => injection H as <- <-
             | H : False |- _ => destruct H
             end;
      cbn [renaming find fst];
      repeat (match goal with
              | |- context [String.eqb ?a n] => destruct (String.eqb_spec a n); [subst n|]
              end; cbn [fst]);
      try (apply String.eqb_neq; congruence); try congruence; try reflexivity.
  - apply IH; assumption.
Qed.

Lemma labelled_in label (df : Pandas.DataFrame) nc :
  In nc (Pandas.labelled label df) -> In nc df /\ fst nc = label.
Proof.
  unfold Pandas.labelled. rewrite filter_In. intros [Hin Hl].
  split; [exact Hin|]. now apply String.eqb_eq in Hl.
Qed.




Lemma str_series x v :
  Pandas.str x = inr v -> x = Pandas.Series (Pandas.ObjectCol v).
Proof.
  destruct x as [[v'| | |]|df]; cbn; intros H; try discriminate. now injection H as <-.
Qed.


(** *** Small facts used by the claims *)

Lemma getitem_without_field cfg k :
  has_field cfg k = false -> exists e, Py.getitem cfg k = inl e.
Proof.
  destruct cfg; cbn; eauto.
  destruct (Py.lookup k items); [discriminate|eauto].
Qed.

Lemma getitem_with_field cfg k :
  has_field cfg k = true -> exists v, Py.getitem cfg k = inr v.
Proof.
  destruct cfg; cbn; try discriminate.
  destruct (Py.lookup k items); [eauto|discriminate].
Qed.

Lemma contains_char_append c a b :
  contains_char c (a +:+ b) = contains_char c a || contains_char c b.
Proof.
  induction a as [|x a IH]; [reflexivity|].
  rewrite append_cons. cbn [contains_char]. rewrite IH. now rewrite orb_assoc.
Qed.

Lemma truediv_plain dir name :
  contains_char "/" name = false ->
  truediv dir (name +:+ ".px") = dir +:+ "/" +:+ name +:+ ".px".
Proof.
  intros H. unfold truediv.
  destruct name as [|a name]; [reflexivity|].
  rewrite append_cons. cbn [is_absolute contains_char] in *.
  apply orb_false_iff in H as [Ha _].
  destruct (Ascii.eqb_spec a "/"); [discriminate|].
  destruct a as [[] [] [] [] [] [] [] []]; try reflexivity. congruence.
Qed.

(** The state an unrecognized format leaves behind. *)
Lemma fallback_state p w req r :
  let st :=
    match p with
    | direct_estimate =>
        {| fs := mkdir_fs "data" (disk w);
           trace := [ Post req; Mkdir "data";
                      Stdout "⚠️ Response format not recognized. Here is the raw text:";
                      Stdout (text r) ] |}
    | population_density =>
        {| fs := disk w;
           trace := [ Post req;
                      Stdout "Response format not recognized. Here's the raw text:";
                      Stdout (text r) ] |}
    end in
  last (trace st) = Some (Stdout (text r)) /\ writes_nothing w st.
Proof.
  destruct p; cbn zeta; (split; [reflexivity|]); (split; [reflexivity|]);
    cbn; intros path content H; intuition discriminate.
Qed.

(** ** The claims *)





(** C3.  A CSV-format run of the direct-estimate script whose response
    body is the one-row table of the scenario succeeds and writes
    [data/direct_estimates.csv] with the header
    [County,Percent_2025K1,Percent_2025K1_me] and the row
    [Stockholm,45.2,1.1]. *)
Theorem csv_scenario w payload table_id r :
  dispatches direct_estimate w payload table_id r "csv" ->
  text r = estimates_csv ->
  exists st,
    run DirectEstimate.main w = (inr tt, st)
    /\ files (fs st) !! "data/direct_estimates.csv" = Some estimates_out
    /\ In (WriteFile "data/direct_estimates.csv" estimates_out) (trace st).
Proof.
  intros Hd Ht.
  pose proof (run_csv direct_estimate w payload table_id r Hd) as Hrun.
  rewrite Ht in Hrun.
  assert (E : csv_normalizer direct_estimate estimates_csv
              = inr [ ("County", Pandas.ObjectCol [Pandas.Str "Stockholm"]);
                      ("Percent_2025K1", Pandas.Float64Col [Pandas.FDec false 452 (-1)]);
                      ("Percent_2025K1_me", Pandas.Float64Col [Pandas.FDec false 11 (-1)]) ])
    by (vm_compute; reflexivity).
  rewrite E in Hrun. cbn [main] in Hrun. rewrite Hrun.
  eexists. split; [reflexivity|]. split.
  - cbn [fs files write_fs output_csv]. rewrite lookup_insert_eq. reflexivity.
  - cbn [trace output_csv]. right. right. left. reflexivity.
Qed.

Lemma csv_scenario_witness :
  dispatches direct_estimate w_csv
    (query_object (Py.Str "csv")) (Py.Str "AM0401N1") (ok estimates_csv) "csv"
  /\ text (ok estimates_csv) = estimates_csv
  /\ exists st,
       run DirectEstimate.main w_csv = (inr tt, st)
       /\ files (fs st) !! "data/direct_estimates.csv" = Some estimates_out
       /\ In (WriteFile "data/direct_estimates.csv" estimates_out) (trace st).
Proof.
  assert (H1 : dispatches direct_estimate w_csv
                 (query_object (Py.Str "csv")) (Py.Str "AM0401N1") (ok estimates_csv) "csv")
    by evaluated.
  split; [exact H1|]. split; [reflexivity|].
  exact (csv_scenario _ _ _ _ H1 eq_refl).
Defined.

(** C4.  When the configuration file is missing or is not JSON, or what it
    holds lacks [queryObj] or [tableIdForQuery], the run of either
    pipeline fails with a [ConfigError] and has asked for nothing by then:
    no HTTP request is issued and the file system is as it was. *)
Theorem config_error_before_network p w :
  config_defect p w ->
  exists f,
    run (main p) w = (inl f, {| fs := disk w; trace := [] |})
    /\ ConfigError f
    /\ forall req, ~ In (Post req) (trace (snd (run (main p) w))).
Proof.
  intros Hdefect.
  assert (exists f, run (main p) w = (inl f, {| fs := disk w; trace := [] |})
                    /\ ConfigError f) as (f & Hrun & Hf).
  { destruct Hdefect as [[e He] | (cfg & Hc & Hfields)];
      destruct p; unfold run, main, config_path in *;
      unfold DirectEstimate.main, PopDensity.main; rewrite bind_eval.
    1,2: rewrite He; eexists; split; reflexivity.
    all: rewrite Hc;
      rewrite bind_eval;
      destruct (has_field cfg "queryObj") eqn:Hq;
      [ apply getitem_with_field in Hq as [payload ->];
        apply getitem_without_field in Hfields as [e He];
        rewrite bind_eval, He
      | apply getitem_without_field in Hq as [e ->] ];
      eexists; split; reflexivity. }
  exists f. rewrite Hrun. repeat split; auto.
Qed.

Lemma config_error_before_network_witness :
  config_defect population_density w_no_table_id
  /\ exists f,
       run PopDensity.main w_no_table_id
       = (inl f, {| fs := disk w_no_table_id; trace := [] |})
       /\ ConfigError f
       /\ forall req, ~ In (Post req) (trace (snd (run PopDensity.main w_no_table_id))).
Proof.
  assert (H1 : config_defect population_density w_no_table_id)
    by (right; eexists; split; reflexivity).
  split; [exact H1|].
  exact (config_error_before_network population_density w_no_table_id H1).
Defined.

(** C5 (as amended).  When the POST raises, or is answered with a client
    or server error status (400 to 599), the run of either pipeline fails
    with a [TransportError] right after the request: no file is written
    or modified and the file system is as it was. *)
Theorem transport_error_writes_nothing p w payload table_id :
  loaded (config_path p) w payload table_id ->
  fetch_fails w (request_for p payload table_id) ->
  exists f,
    run (main p) w
    = (inl f, {| fs := disk w; trace := [Post (request_for p payload table_id)] |})
    /\ TransportError f
    /\ writes_nothing w (snd (run (main p) w)).
Proof.
  intros (cfg & Hc & Hq & Ht) Hfail.
  assert (exists f,
            run (main p) w
            = (inl f, {| fs := disk w; trace := [Post (request_for p payload table_id)] |})
            /\ TransportError f) as (f & Hrun & Hf).
  { destruct p; unfold run, main, config_path, request_for in *.
    - unfold DirectEstimate.main.
      rewrite bind_eval, Hc, bind_eval, Hq, bind_eval, Ht, bind_post. cbn zeta.
      unfold DirectEstimate.request_for in Hfail.
      destruct Hfail as [[e ->] | (r & -> & Hs)].
      + eexists; split; reflexivity.
      + rewrite bind_raise_for_status.
        replace ((400 <=? status_code r) && (status_code r <? 600))%Z with true by lia.
        eexists; split; reflexivity.
    - unfold PopDensity.main.
      rewrite bind_eval, Hc, bind_eval, Hq, bind_eval, Ht, bind_post. cbn zeta.
      unfold PopDensity.request_for in Hfail.
      destruct Hfail as [[e ->] | (r & -> & Hs)].
      + eexists; split; reflexivity.
      + rewrite bind_raise_for_status.
        replace ((400 <=? status_code r) && (status_code r <? 600))%Z with true by lia.
        eexists; split; reflexivity. }
  exists f. rewrite Hrun. split; [reflexivity|]. split; [exact Hf|].
  split; [reflexivity|]. cbn. intros path content H. intuition discriminate.
Qed.

Lemma transport_error_writes_nothing_witness :
  loaded (config_path direct_estimate) w_not_found
    (query_object (Py.Str "csv")) (Py.Str "AM0401N1")
  /\ fetch_fails w_not_found
       (request_for direct_estimate (query_object (Py.Str "csv")) (Py.Str "AM0401N1"))
  /\ exists f,
       run DirectEstimate.main w_not_found
       = (inl f,
          {| fs := disk w_not_found;
             trace := [Post (DirectEstimate.request_for
                               (query_object (Py.Str "csv")) (Py.Str "AM0401N1"))] |})
       /\ TransportError f
       /\ writes_nothing w_not_found (snd (run DirectEstimate.main w_not_found)).
Proof.
  assert (H1 : loaded (config_path direct_estimate) w_not_found
                 (query_object (Py.Str "csv")) (Py.Str "AM0401N1")) by evaluated.
  assert (H2 : fetch_fails w_not_found
                 (request_for direct_estimate (query_object (Py.Str "csv"))
                    (Py.Str "AM0401N1"))).
  { right. eexists. split; [reflexivity|]. cbn. lia. }
  split; [exact H1|]. split; [exact H2|].
  exact (transport_error_writes_nothing direct_estimate w_not_found _ _ H1 H2).
Defined.

(** C5 as stated fails.  The status 300 is not a 2xx status, yet
    [raise_for_status] lets it through: the run succeeds and writes the
    file [data/BE0101N1.px], which did not exist. *)
Lemma non_2xx_counterexample :
  post w_multiple_choices
    (DirectEstimate.request_for (query_object (Py.Str "px")) (Py.Str "BE0101N1"))
  = inr multiple_choices
  /\ status_code multiple_choices = 300%Z
  /\ run DirectEstimate.main w_multiple_choices
     = (inr tt,
        {| fs := write_fs "data/BE0101N1.px" px_body
                   (mkdir_fs "data" (disk w_multiple_choices));
           trace := [ Post (DirectEstimate.request_for
                              (query_object (Py.Str "px")) (Py.Str "BE0101N1"));
                      Mkdir "data";
                      WriteFile "data/BE0101N1.px" px_body;
                      Stdout "✅ PC-Axis file saved to /srv/sae/data/BE0101N1.px" ] |})
  /\ files (fs (snd (run DirectEstimate.main w_multiple_choices))) !! "data/BE0101N1.px"
     = Some px_body
  /\ files (disk w_multiple_choices) !! "data/BE0101N1.px" = None.
Proof.
  split; [reflexivity|]. split; [reflexivity|].
  assert (Hd : dispatches direct_estimate w_multiple_choices
                 (query_object (Py.Str "px")) (Py.Str "BE0101N1") multiple_choices "px")
    by evaluated.
  pose proof (run_px _ _ _ _ _ Hd) as Hrun. cbn [main] in Hrun.
  split; [rewrite Hrun; reflexivity|].
  split; [|reflexivity].
  rewrite Hrun. cbn. apply lookup_insert_eq.
Qed.

(** C6 (as amended).  In a CSV-format run of either pipeline whose parsed
    response table has neither an expected source column nor a column
    that already bears the label this source column is renamed to, the
    column selection raises [KeyError]: the run fails with a
    [SchemaError] and writes no file. *)
Theorem schema_error_writes_nothing p w payload table_id r df src tgt :
  dispatches p w payload table_id r "csv" ->
  Pandas.read_csv (text r) = inr df ->
  In (src, tgt) (renaming p) ->
  Pandas.has_label df src = false ->
  Pandas.has_label df tgt = false ->
  exists f st,
    run (main p) w = (inl f, st) /\ SchemaError f /\ writes_nothing w st.
Proof.
  intros Hd Hread Hin Hsrc Htgt.
  pose proof (rename_lacks p df src tgt Hin Hsrc Htgt) as Hlacks.
  assert (Hsel : In tgt (selected p)).
  { unfold selected. apply in_map_iff. now exists (src, tgt). }
  destruct (getitem_list_missing _ _ _ Hsel Hlacks) as [missing Hmissing].
  assert (E : csv_normalizer p (text r) = inl (Py.KeyError missing)).
  { destruct p; unfold csv_normalizer, DirectEstimate.csv_normalizer,
      PopDensity.csv_normalizer; rewrite Hread; cbn [and_then];
      cbn [renaming selected map snd] in Hmissing; rewrite Hmissing; reflexivity. }
  rewrite (run_csv p w payload table_id r Hd), E.
  eexists. eexists. split; [reflexivity|]. split.
  - split; [reflexivity|]. now exists missing.
  - destruct p; split; try reflexivity; cbn; intros path content H;
      intuition discriminate.
Qed.

Lemma schema_error_writes_nothing_witness :
  dispatches direct_estimate w_no_region
    (query_object (Py.Str "csv")) (Py.Str "AM0401N1") (ok no_region_csv) "csv"
  /\ exists f st,
       run DirectEstimate.main w_no_region = (inl f, st)
       /\ SchemaError f /\ writes_nothing w_no_region st.
Proof.
  assert (H1 : dispatches direct_estimate w_no_region
                 (query_object (Py.Str "csv")) (Py.Str "AM0401N1") (ok no_region_csv) "csv")
    by evaluated.
  split; [exact H1|].
  eapply (schema_error_writes_nothing direct_estimate w_no_region _ _ _ _
            "region" "County" H1).
  - vm_compute. reflexivity.
  - left. reflexivity.
  - vm_compute. reflexivity.
  - vm_compute. reflexivity.
Defined.

(** C6 as stated fails.  The parsed table has no column [region], one of
    the expected source columns, but its first column is already called
    [County]: no error is raised and the output file is written. *)
Lemma missing_source_column_counterexample :
  dispatches direct_estimate w_county_header
    (query_object (Py.Str "csv")) (Py.Str "AM0401N1") (ok county_header_csv) "csv"
  /\ (exists df,
        Pandas.read_csv county_header_csv = inr df
        /\ Pandas.has_label df "region" = false)
  /\ fst (run DirectEstimate.main w_county_header) = inr tt
  /\ files (fs (snd (run DirectEstimate.main w_county_header)))
       !! "data/direct_estimates.csv"
     = Some estimates_out.
Proof.
  split; [evaluated|].
  split; [eexists; split; vm_compute; reflexivity|].
  split; vm_compute; reflexivity.
Qed.

(** C7.  When the payload declares a format string that is neither
    ["csv"] nor ["px"] once put in lower case, a run of either pipeline
    that got its response ends without error, the last thing it prints is
    the raw response body, and it writes no file. *)
Theorem unrecognized_format_fallback p w payload table_id r s :
  fetched p w payload table_id r ->
  declared_format payload = inr (Py.Str s) ->
  lower s <> "csv" -> lower s <> "px" ->
  exists st,
    run (main p) w = (inr tt, st)
    /\ last (trace st) = Some (Stdout (text r))
    /\ writes_nothing w st.
Proof.
  intros Hf Hs Hcsv Hpx.
  assert (Hd : dispatches p w payload table_id r (lower s)).
  { split; [exact Hf|]. unfold response_format. now rewrite Hs. }
  rewrite (run_unrecognized p w payload table_id r _ Hd Hcsv Hpx).
  eexists. split; [reflexivity|]. apply fallback_state.
Qed.

Lemma unrecognized_format_fallback_witness :
  fetched population_density w_xml
    (query_object (Py.Str "xml")) (Py.Str "BE0101N1") (ok "<table/>")
  /\ declared_format (query_object (Py.Str "xml")) = inr (Py.Str "xml")
  /\ exists st,
       run PopDensity.main w_xml = (inr tt, st)
       /\ last (trace st) = Some (Stdout "<table/>")
       /\ writes_nothing w_xml st.
Proof.
  assert (H1 : fetched population_density w_xml
                 (query_object (Py.Str "xml")) (Py.Str "BE0101N1") (ok "<table/>"))
    by evaluated.
  split; [exact H1|]. split; [reflexivity|].
  apply (unrecognized_format_fallback population_density w_xml _ _ _ "xml" H1 eq_refl);
    vm_compute; discriminate.
Defined.

(** C8 (as amended).  In a PX-format run of either pipeline whose table
    identifier holds no ["/"] and no NUL character, the response text is
    written unmodified to [data/<tableIdForQuery>.px], and nothing else
    is written; with the identifier ["BE0101N1"] the file is
    [data/BE0101N1.px]. *)
Theorem px_passthrough p w payload table_id r :
  dispatches p w payload table_id r "px" ->
  contains_char "/" (Py.str table_id) = false ->
  contains_char "000" (Py.str table_id) = false ->
  exists st,
    run (main p) w = (inr tt, st)
    /\ files (fs st)
       = <[ "data/" +:+ Py.str table_id +:+ ".px" := text r ]> (files (disk w))
    /\ forall path content,
         In (WriteFile path content) (trace st) <->
         path = "data/" +:+ Py.str table_id +:+ ".px" /\ content = text r.
Proof.
  intros Hd Hslash Hnul.
  rewrite (run_px p w payload table_id r Hd). cbn zeta.
  rewrite (truediv_plain "data" _ Hslash).
  assert (contains_char "000" ("data" +:+ "/" +:+ Py.str table_id +:+ ".px") = false) as ->.
  { rewrite !contains_char_append, Hnul. reflexivity. }
  eexists. split; [reflexivity|]. split; [reflexivity|].
  intros path content. cbn [trace In]. split.
  - intros [H|[H|[H|[H|[]]]]]; try discriminate. injection H as <- <-. auto.
  - intros [-> ->]. right. right. left. reflexivity.
Qed.

Lemma px_passthrough_witness :
  dispatches population_density w_px
    (query_object (Py.Str "px")) (Py.Str "BE0101N1") (ok px_body) "px"
  /\ exists st,
       run PopDensity.main w_px = (inr tt, st)
       /\ files (fs st) = <[ "data/BE0101N1.px" := px_body ]> (files (disk w_px))
       /\ forall path content,
            In (WriteFile path content) (trace st) <->
            path = "data/BE0101N1.px" /\ content = px_body.
Proof.
  assert (H1 : dispatches population_density w_px
                 (query_object (Py.Str "px")) (Py.Str "BE0101N1") (ok px_body) "px")
    by evaluated.
  split; [exact H1|].
  exact (px_passthrough population_density w_px _ _ _ H1 eq_refl eq_refl).
Defined.

(** C8 as stated fails.  With the table identifier ["/tmp/x"] the joined
    path is the absolute path [/tmp/x.px]: the PX-format run writes the
    response there, outside the output directory. *)
Lemma absolute_table_id_counterexample :
  dispatches direct_estimate w_absolute
    (query_object (Py.Str "px")) (Py.Str "/tmp/x") (ok px_body) "px"
  /\ run DirectEstimate.main w_absolute
     = (inr tt,
        {| fs := write_fs "/tmp/x.px" px_body (mkdir_fs "data" (disk w_absolute));
           trace := [ Post (DirectEstimate.request_for
                              (query_object (Py.Str "px")) (Py.Str "/tmp/x"));
                      Mkdir "data";
                      WriteFile "/tmp/x.px" px_body;
                      Stdout "✅ PC-Axis file saved to /tmp/x.px" ] |})
  /\ String.prefix "data/" "/tmp/x.px" = false.
Proof.
  assert (Hd : dispatches direct_estimate w_absolute
                 (query_object (Py.Str "px")) (Py.Str "/tmp/x") (ok px_body) "px")
    by evaluated.
  split; [exact Hd|]. split; [|reflexivity].
  exact (run_px _ _ _ _ _ Hd).
Qed.

(** C9.  When the query object has no ["response"] key, or its
    ["response"] object has no ["format"] key, the format string is the
    empty string and a run of either pipeline that got its response takes
    the fallback: it ends without error, prints the raw body last and
    writes no file. *)
Theorem missing_format_defaults p w items table_id r :
  fetched p w (Py.Dict items) table_id r ->
  Py.lookup "response" items = None
  \/ (exists response, Py.lookup "response" items = Some (Py.Dict response)
                       /\ Py.lookup "format" response = None) ->
  response_format (Py.Dict items) = inr (Py.Str "")
  /\ exists st,
       run (main p) w = (inr tt, st)
       /\ last (trace st) = Some (Stdout (text r))
       /\ writes_nothing w st.
Proof.
  intros Hf Hmissing.
  assert (Hfmt : response_format (Py.Dict items) = inr (Py.Str "")).
  { unfold response_format, declared_format. cbn [Py.get].
    destruct Hmissing as [-> | (response & -> & Hfmt)]; cbn [and_then Py.get Py.lookup].
    - reflexivity.
    - now rewrite Hfmt. }
  split; [exact Hfmt|].
  assert (Hd : dispatches p w (Py.Dict items) table_id r "") by (split; assumption).
  rewrite (run_unrecognized p w _ table_id r _ Hd); [|discriminate|discriminate].
  eexists. split; [reflexivity|]. apply fallback_state.
Qed.

Lemma missing_format_defaults_witness :
  fetched direct_estimate w_no_format
    (Py.Dict query_without_format) (Py.Str "BE0101N1") (ok "<table/>")
  /\ Py.lookup "response" query_without_format = None
  /\ response_format (Py.Dict query_without_format) = inr (Py.Str "")
  /\ exists st,
       run DirectEstimate.main w_no_format = (inr tt, st)
       /\ last (trace st) = Some (Stdout "<table/>")
       /\ writes_nothing w_no_format st.
Proof.
  assert (H1 : fetched direct_estimate w_no_format
                 (Py.Dict query_without_format) (Py.Str "BE0101N1") (ok "<table/>"))
    by evaluated.
  split; [exact H1|]. split; [reflexivity|].
  exact (missing_format_defaults direct_estimate w_no_format _ _ _ H1 (or_introl eq_refl)).
Defined.

(** C10 (as amended).  A run of the direct-estimate script that got its
    response and read a format string from the payload creates [data]
    right after the request, before the dispatch, whatever the format.  A
    run of the population-density script that reaches the dispatch
    creates it only inside the branches: with an unrecognized format the
    file system is left as it was and no directory is asked for; in the
    [px] branch it is created; in the [csv] branch it is created exactly
    when the normaliser succeeds. *)
Theorem directory_creation_differs
    w payload1 table_id1 r1 fmt1 payload2 table_id2 r2 fmt2 :
  dispatches direct_estimate w payload1 table_id1 r1 fmt1 ->
  dispatches population_density w payload2 table_id2 r2 fmt2 ->
  (trace (snd (run DirectEstimate.main w)) !! 1%nat = Some (Mkdir "data")
   /\ "data" ∈ dirs (fs (snd (run DirectEstimate.main w))))
  /\ (fmt2 <> "csv" -> fmt2 <> "px" ->
      fs (snd (run PopDensity.main w)) = disk w
      /\ forall path, ~ In (Mkdir path) (trace (snd (run PopDensity.main w))))
  /\ (fmt2 = "px" -> In (Mkdir "data") (trace (snd (run PopDensity.main w))))
  /\ (fmt2 = "csv" ->
      (In (Mkdir "data") (trace (snd (run PopDensity.main w)))
       <-> exists df, PopDensity.csv_normalizer (text r2) = inr df)).
Proof.
  intros H1 H2. split; [|split; [|split]].
  - destruct (String.eqb_spec fmt1 "csv") as [->|Hcsv].
    { pose proof (run_csv _ _ _ _ _ H1) as E. cbn [main] in E. rewrite E.
      destruct (csv_normalizer direct_estimate (text r1)); cbn; split;
        try reflexivity; set_solver. }
    destruct (String.eqb_spec fmt1 "px") as [->|Hpx].
    { pose proof (run_px _ _ _ _ _ H1) as E. cbn [main] in E. rewrite E. cbn zeta.
      destruct (contains_char "000" _); cbn; split; try reflexivity; set_solver. }
    pose proof (run_unrecognized _ _ _ _ _ _ H1 Hcsv Hpx) as E. cbn [main] in E.
    rewrite E. cbn. split; [reflexivity|set_solver].
  - intros Hcsv Hpx.
    pose proof (run_unrecognized _ _ _ _ _ _ H2 Hcsv Hpx) as E. cbn [main] in E.
    rewrite E. cbn. split; [reflexivity|]. intros path H. intuition discriminate.
  - intros ->.
    pose proof (run_px _ _ _ _ _ H2) as E. cbn [main] in E. rewrite E. cbn zeta.
    destruct (contains_char "000" _); cbn; auto.
  - intros ->.
    pose proof (run_csv _ _ _ _ _ H2) as E. cbn [main] in E. rewrite E.
    cbn [csv_normalizer].
    destruct (PopDensity.csv_normalizer (text r2)) as [e|df]; cbn; split.
    + intros [H|[]]. discriminate.
    + intros [df H]. discriminate.
    + eauto.
    + auto.
Qed.

Lemma directory_creation_differs_witness :
  dispatches direct_estimate w_xml
    (query_object (Py.Str "xml")) (Py.Str "BE0101N1") (ok "<table/>") "xml"
  /\ dispatches population_density w_xml
       (query_object (Py.Str "xml")) (Py.Str "BE0101N1") (ok "<table/>") "xml"
  /\ trace (snd (run DirectEstimate.main w_xml)) !! 1%nat = Some (Mkdir "data")
  /\ fs (snd (run PopDensity.main w_xml)) = disk w_xml
  /\ forall path, ~ In (Mkdir path) (trace (snd (run PopDensity.main w_xml))).
Proof.
  assert (H1 : dispatches direct_estimate w_xml
                 (query_object (Py.Str "xml")) (Py.Str "BE0101N1") (ok "<table/>") "xml")
    by evaluated.
  assert (H2 : dispatches population_density w_xml
                 (query_object (Py.Str "xml")) (Py.Str "BE0101N1") (ok "<table/>") "xml")
    by evaluated.
  split; [exact H1|]. split; [exact H2|].
  destruct (directory_creation_differs _ _ _ _ _ _ _ _ _ H1 H2)
    as ([Hmk _] & Hunrecognized & _).
  split; [exact Hmk|].
  apply Hunrecognized; discriminate.
Defined.

(** C10 as stated fails.  The run below survives the fetch, but its
    payload declares the format [null]: reading the format string raises
    [AttributeError] before the directory is asked for, and the
    direct-estimate run ends with the file system as it was. *)
Lemma null_format_counterexample :
  fetched direct_estimate w_null_format
    (query_object Py.None_) (Py.Str "AM0401N1") (ok estimates_csv)
  /\ run DirectEstimate.main w_null_format
     = (inl {| raised_in := AtParse; raised := Py.AttributeError |},
        {| fs := disk w_null_format;
           trace := [ Post (DirectEstimate.request_for
                              (query_object Py.None_) (Py.Str "AM0401N1")) ] |}).
Proof.
  assert (Hf : fetched direct_estimate w_null_format
                 (query_object Py.None_) (Py.Str "AM0401N1") (ok estimates_csv))
    by evaluated.
  split; [exact Hf|].
  apply (run_format_error direct_estimate _ _ _ _ _ Hf). reflexivity.
Qed.

(** * Further properties of the scripts *)

Import Properties.

(** ** The cleaning of one name *)

Lemma append_nil s : s +:+ "" = s.
Proof. induction s as [|a s IH]; [reflexivity|]. rewrite append_cons. now rewrite IH. Qed.

Lemma piece_of_refl s : piece_of s s.
Proof. exists "", "". now rewrite append_nil. Qed.

Lemma piece_of_trans a b c : piece_of a b -> piece_of b c -> piece_of a c.
Proof.
  intros (x & y & ->) (x' & y' & ->). exists (x' +:+ x), (y +:+ y').
  now rewrite !append_assoc.
Qed.

Lemma piece_of_suffix a s : piece_of s (a +:+ s).
Proof. exists a, "". now rewrite append_nil. Qed.

Lemma piece_of_prefix s b : piece_of s (s +:+ b).
Proof. now exists "", b. Qed.

Lemma lstrip_suffix s : exists a, s = a +:+ lstrip s.
Proof.
  induction s as [|c s [a IH]]; [now exists ""|]. cbn [lstrip].
  destruct (is_space c); [|now exists ""].
  exists (String c a). rewrite append_cons. now rewrite <- IH.
Qed.

Lemma rstrip_prefix s : exists b, s = rstrip s +:+ b.
Proof.
  induction s as [|c s [b IH]]; [now exists ""|]. cbn [rstrip].
  destruct (rstrip s) as [|d r] eqn:E.
  - destruct (is_space c).
    + now exists (String c s).
    + exists s. reflexivity.
  - exists b. rewrite append_cons. now rewrite <- IH.
Qed.

Lemma strip_piece s : piece_of (strip s) s.
Proof.
  unfold strip. destruct (lstrip_suffix s) as [a Ha].
  destruct (rstrip_prefix (lstrip s)) as [b Hb].
  exists a, b. now rewrite <- Hb.
Qed.

Lemma strip_leading_code_suffix s : exists a, s = a +:+ strip_leading_code s.
Proof.
  unfold strip_leading_code.
  pose proof (span_app is_digit s) as E1.
  destruct (span is_digit s) as [ds r]. cbn [fst snd] in E1.
  pose proof (span_app is_space r) as E2.
  destruct (span is_space r) as [ws name]. cbn [fst snd] in E2.
  destruct (non_empty ds && non_empty ws); [|now exists ""].
  exists (ds +:+ ws). now rewrite append_assoc, E2.
Qed.

Lemma rstrip_newline s : rstrip (s +:+ String "010" "") = rstrip s.
Proof.
  induction s as [|a s IH]; [reflexivity|].
  rewrite append_cons. cbn [rstrip]. now rewrite IH.
Qed.

Lemma lstrip_app x y : lstrip x <> "" -> lstrip (x +:+ y) = lstrip x +:+ y.
Proof.
  induction x as [|a x IH]; [intros H; exfalso; now apply H|].
  rewrite append_cons. cbn [lstrip].
  destruct (is_space a); [exact IH|]. intros _. now rewrite append_cons.
Qed.

Lemma lstrip_blank_app x y : lstrip x = "" -> lstrip (x +:+ y) = lstrip y.
Proof.
  induction x as [|a x IH]; [reflexivity|]. rewrite append_cons. cbn [lstrip].
  destruct (is_space a); [exact IH|discriminate].
Qed.

Lemma strip_newline s : strip (s +:+ String "010" "") = strip s.
Proof.
  unfold strip. destruct (lstrip s) as [|a t] eqn:E.
  - rewrite (lstrip_blank_app s _ E). reflexivity.
  - rewrite lstrip_app by congruence. rewrite E. apply rstrip_newline.
Qed.

(** What [strip_trailing_word] removes lies between what it keeps. *)
Lemma strip_trailing_word_cut ci s :
  strip_trailing_word ci s = s
  \/ exists pre mid rest,
       s = pre +:+ mid +:+ rest
       /\ strip_trailing_word ci s = pre +:+ rest
       /\ (rest = "" \/ rest = String "010" "").
Proof.
  induction s as [|a s IH]; [now left|].
  rewrite strip_trailing_word_eq.
  destruct (qualifier_tail ci (String a s)) as [rest|] eqn:Q.
  - right. apply qualifier_tail_shape in Q as (word & -> & _ & Hrest).
    exists "", (String a word), rest. repeat split; auto.
  - destruct IH as [-> | (pre & mid & rest & E & -> & Hrest)]; [now left|].
    right. exists (String a pre), mid, rest. rewrite E at 1. repeat split; auto.
Qed.

Lemma spec_clean_piece ci s : piece_of (spec_clean ci s) s.
Proof.
  unfold spec_clean.
  destruct (strip_leading_code_suffix s) as [a Ha].
  apply piece_of_trans with (strip_leading_code s);
    [|rewrite Ha at 2; apply piece_of_suffix].
  destruct (strip_trailing_word_cut ci (strip_leading_code s))
    as [-> | (pre & mid & rest & E & -> & Hrest)]; [apply strip_piece|].
  rewrite E.
  assert (strip (pre +:+ rest) = strip pre) as ->.
  { destruct Hrest as [-> | ->]; [now rewrite append_nil|apply strip_newline]. }
  apply piece_of_trans with pre; [apply strip_piece|apply piece_of_prefix].
Qed.

(** *** Names without capitals *)

Lemma lower_no_capitals s : no_capitals s = true -> lower s = s.
Proof.
  unfold no_capitals. induction s as [|a s IH]; [reflexivity|].
  cbn [all_chars lower]. intros H. apply andb_true_iff in H as [Ha Hs].
  rewrite (IH Hs). unfold lower_char.
  destruct (is_upper a); [discriminate|reflexivity].
Qed.

Lemma no_capitals_substring n m s :
  no_capitals s = true -> no_capitals (String.substring n m s) = true.
Proof.
  unfold no_capitals. revert n m. induction s as [|a s IH]; intros n m H.
  - destruct n, m; reflexivity.
  - cbn [all_chars] in H. apply andb_true_iff in H as [Ha Hs].
    destruct n as [|n]; [destruct m as [|m]|]; cbn [String.substring all_chars].
    + reflexivity.
    + rewrite Ha. now apply IH.
    + now apply IH.
Qed.

Lemma no_capitals_app a b :
  no_capitals (a +:+ b) = no_capitals a && no_capitals b.
Proof.
  unfold no_capitals. induction a as [|x a IH]; [reflexivity|].
  rewrite append_cons. cbn [all_chars]. rewrite IH. now rewrite andb_assoc.
Qed.

Lemma qualifier_tail_no_capitals s :
  no_capitals s = true -> qualifier_tail true s = qualifier_tail false s.
Proof.
  intros H. destruct s as [|w t]; [reflexivity|].
  unfold qualifier_tail, same_word.
  assert (Ht : no_capitals t = true).
  { unfold no_capitals in *. cbn [all_chars] in H. now apply andb_true_iff in H as [_ H]. }
  rewrite (lower_no_capitals _ (no_capitals_substring 0 6 t Ht)).
  reflexivity.
Qed.

Lemma strip_trailing_word_no_capitals s :
  no_capitals s = true -> strip_trailing_word true s = strip_trailing_word false s.
Proof.
  induction s as [|a s IH]; [reflexivity|]. intros H.
  rewrite (strip_trailing_word_eq true (String a s)),
    (strip_trailing_word_eq false (String a s)), (qualifier_tail_no_capitals _ H).
  destruct (qualifier_tail false (String a s)); [reflexivity|].
  rewrite IH; [reflexivity|].
  unfold no_capitals in *. cbn [all_chars] in H. now apply andb_true_iff in H as [_ H].
Qed.

Lemma spec_clean_no_capitals s :
  no_capitals s = true -> spec_clean true s = spec_clean false s.
Proof.
  intros H. unfold spec_clean.
  destruct (strip_leading_code_suffix s) as [a Ha].
  rewrite strip_trailing_word_no_capitals; [reflexivity|].
  rewrite Ha, no_capitals_app in H. now apply andb_true_iff in H as [_ H].
Qed.

(** *** Names that are clean already *)








(** ** The ways a run ends *)

Lemma with_disk_same w : with_disk w (disk w) = w.
Proof. destruct w; reflexivity. Qed.

Lemma run_load_error p w e :
  load_raises (Pipelines.config_path p) w e ->
  run (main p) w = (inl {| raised_in := AtLoad; raised := e |},
                    {| fs := disk w; trace := [] |}).
Proof.
  intros H. destruct p; unfold run, main, Pipelines.config_path in *;
    unfold DirectEstimate.main, PopDensity.main; rewrite bind_eval;
    (destruct H as [-> | (cfg & -> & [Hq | (payload & Hq & Ht)])];
     [reflexivity
     | rewrite bind_eval, Hq; reflexivity
     | rewrite bind_eval, Hq, bind_eval, Ht; reflexivity ]).
Qed.

Lemma run_fetch_error p w payload table_id :
  loaded (Pipelines.config_path p) w payload table_id ->
  run (main p) w
  = match post w (Pipelines.request_for p payload table_id) with
    | inl e =>
        (inl {| raised_in := AtFetch; raised := e |},
         {| fs := disk w; trace := [Post (Pipelines.request_for p payload table_id)] |})
    | inr r =>
        if ((400 <=? status_code r) && (status_code r <? 600))%Z
        then (inl {| raised_in := AtFetch; raised := Py.HTTPError (status_code r) |},
              {| fs := disk w;
                 trace := [Post (Pipelines.request_for p payload table_id)] |})
        else run (main p) w
    end.
Proof.
  intros (cfg & Hc & Hq & Ht).
  destruct p; unfold run, main, Pipelines.config_path, Pipelines.request_for in *.
  - unfold DirectEstimate.main.
    rewrite bind_eval, Hc, bind_eval, Hq, bind_eval, Ht, bind_post. cbn zeta.
    fold (DirectEstimate.request_for payload table_id).
    destruct (post w _) as [e|r]; [reflexivity|].
    rewrite bind_raise_for_status.
    destruct ((400 <=? status_code r) && (status_code r <? 600))%Z; reflexivity.
  - unfold PopDensity.main.
    rewrite bind_eval, Hc, bind_eval, Hq, bind_eval, Ht, bind_post. cbn zeta.
    fold (PopDensity.request_for payload table_id).
    destruct (post w _) as [e|r]; [reflexivity|].
    rewrite bind_raise_for_status.
    destruct ((400 <=? status_code r) && (status_code r <? 600))%Z; reflexivity.
Qed.

Lemma response_format_str payload v :
  response_format payload = inr v -> exists fmt, v = Py.Str fmt.
Proof.
  unfold response_format.
  destruct (declared_format payload) as [e|x]; [discriminate|]. cbn [and_then].
  destruct x; cbn; intros H; try discriminate. injection H as <-. eauto.
Qed.

Lemma loaded_or_not p w :
  (exists e, load_raises (Pipelines.config_path p) w e)
  \/ exists payload table_id, loaded (Pipelines.config_path p) w payload table_id.
Proof.
  unfold load_raises, loaded.
  destruct (json_load w (Pipelines.config_path p)) as [e|cfg] eqn:Hc; [left; eauto|].
  destruct (Py.getitem cfg "queryObj") as [e|payload] eqn:Hq.
  { left. exists e. right. exists cfg. auto. }
  destruct (Py.getitem cfg "tableIdForQuery") as [e|table_id] eqn:Ht.
  { left. exists e. right. exists cfg. split; [reflexivity|]. right. eauto. }
  right. exists payload, table_id, cfg. auto.
Qed.

(** Every run ends in one of these ways, whatever the disk it starts on. *)
Lemma run_ends p w :
  exists res T tr,
    (forall d, run (main p) (with_disk w d) = (res, {| fs := T d; trace := tr |}))
    /\ ((tr = [] /\ forall d, T d = d)
        \/ exists payload table_id rest,
             loaded (Pipelines.config_path p) w payload table_id
             /\ tr = Post (Pipelines.request_for p payload table_id) :: rest
             /\ after_request rest T).
Proof.
  destruct (loaded_or_not p w) as [[e He] | (payload & table_id & Hl)].
  { eexists _, (fun d => d), []. split; [|left; auto].
    intros d. exact (run_load_error p (with_disk w d) e He). }
  assert (Hfetch := fun d => run_fetch_error p (with_disk w d) payload table_id Hl).
  cbn [post with_disk] in Hfetch.
  destruct (post w (Pipelines.request_for p payload table_id)) as [e|r] eqn:Hp.
  { eexists _, (fun d => d), _. split; [exact Hfetch|].
    right. exists payload, table_id, []. repeat split; auto. left. auto. }
  destruct ((400 <=? status_code r) && (status_code r <? 600))%Z eqn:Hs.
  { eexists _, (fun d => d), _. split; [exact Hfetch|].
    right. exists payload, table_id, []. repeat split; auto. left. auto. }
  clear Hfetch.
  assert (Hf : forall d, Pipelines.fetched p (with_disk w d) payload table_id r).
  { intros d. destruct p; (split; [exact Hl|split; [exact Hp|exact Hs]]). }
  destruct (response_format payload) as [e|v] eqn:Hfmt.
  { eexists _, (fun d => d), _. split.
    - intros d. exact (run_format_error p (with_disk w d) _ _ _ _ (Hf d) Hfmt).
    - right. exists payload, table_id, []. repeat split; auto. left. auto. }
  destruct (response_format_str _ _ Hfmt) as [fmt ->].
  assert (Hd : forall d, dispatches p (with_disk w d) payload table_id r fmt)
    by (intros d; split; [apply Hf|exact Hfmt]).
  destruct (String.eqb_spec fmt "csv") as [->|Hcsv].
  { destruct (Pipelines.csv_normalizer p (text r)) as [e|df] eqn:E.
    - destruct p.
      + eexists _, (mkdir_fs "data"), _. split.
        * intros d. rewrite (run_csv _ _ _ _ _ (Hd d)), E. reflexivity.
        * right. exists payload, table_id, [Mkdir "data"]. repeat split; auto.
          right. right. left. auto.
      + eexists _, (fun d => d), _. split.
        * intros d. rewrite (run_csv _ _ _ _ _ (Hd d)), E. reflexivity.
        * right. exists payload, table_id, []. repeat split; auto. left. auto.
    - eexists _, (fun d => write_fs (output_csv p) (Pandas.to_csv df) (mkdir_fs "data" d)), _.
      split.
      + intros d. rewrite (run_csv _ _ _ _ _ (Hd d)), E. cbn [cwd with_disk].
        reflexivity.
      + right. exists payload, table_id. eexists. repeat split; auto.
        right. right. right. right. eexists _, _, _. split; [reflexivity|auto]. }
  destruct (String.eqb_spec fmt "px") as [->|Hpx].
  { destruct (contains_char "000" (truediv "data" (Py.str table_id +:+ ".px"))) eqn:E.
    - eexists _, (mkdir_fs "data"), _. split.
      + intros d. rewrite (run_px _ _ _ _ _ (Hd d)). cbn zeta. rewrite E. reflexivity.
      + right. exists payload, table_id, [Mkdir "data"]. repeat split; auto.
        right. right. left. auto.
    - eexists _, (fun d => write_fs _ (text r) (mkdir_fs "data" d)), _. split.
      + intros d. rewrite (run_px _ _ _ _ _ (Hd d)). cbn zeta. rewrite E.
        unfold resolve. cbn [cwd with_disk]. reflexivity.
      + right. exists payload, table_id. eexists. repeat split; auto.
        right. right. right. right. eexists _, _, _. split; [reflexivity|auto]. }
  destruct p.
  - eexists _, (mkdir_fs "data"), _. split.
    + intros d. rewrite (run_unrecognized _ _ _ _ _ _ (Hd d) Hcsv Hpx). reflexivity.
    + right. exists payload, table_id. eexists. repeat split; auto.
      right. right. right. left. eexists _, _. split; [reflexivity|auto].
  - eexists _, (fun d => d), _. split.
    + intros d. rewrite (run_unrecognized _ _ _ _ _ _ (Hd d) Hcsv Hpx). reflexivity.
    + right. exists payload, table_id. eexists. repeat split; auto.
      right. left. eexists _, _. split; [reflexivity|auto].
Qed.

Lemma mkdir_fs_twice p d : mkdir_fs p (mkdir_fs p d) = mkdir_fs p d.
Proof.
  unfold mkdir_fs. cbn [dirs files]. f_equal.
  now rewrite (assoc_L (∪)), (idemp_L (∪)).
Qed.

Lemma write_fs_twice p c d : write_fs p c (write_fs p c d) = write_fs p c d.
Proof. unfold write_fs. cbn [dirs files]. f_equal. apply insert_insert_eq. Qed.

Lemma mkdir_write_fs p q c d :
  mkdir_fs p (write_fs q c d) = write_fs q c (mkdir_fs p d).
Proof. reflexivity. Qed.

Lemma after_request_twice rest T :
  after_request rest T -> forall d, T (T d) = T d.
Proof.
  intros [[_ H] | [(l1 & l2 & _ & H) | [[_ H] | [(l1 & l2 & _ & H)
         | (path & content & msg & _ & H)]]]] d; rewrite !H; try reflexivity.
  - apply mkdir_fs_twice.
  - apply mkdir_fs_twice.
  - rewrite mkdir_write_fs, mkdir_fs_twice. apply write_fs_twice.
Qed.

Lemma after_request_no_post rest T :
  after_request rest T -> forall req, ~ In (Post req) rest.
Proof.
  intros [[-> _] | [(l1 & l2 & -> & _) | [[-> _] | [(l1 & l2 & -> & _)
         | (path & content & msg & -> & _)]]]] req; cbn; intuition discriminate.
Qed.

(** ** Properties of the runs *)

(** X1.  A run of either script issues at most one HTTP request, and the
    request is its first effect: the trace of a run is empty, or it opens
    with the POST of the loaded query object to the URL of the loaded
    table identifier and holds no other request. *)
Theorem one_request_first p w :
  trace (snd (run (main p) w)) = []
  \/ exists payload table_id rest,
       loaded (Pipelines.config_path p) w payload table_id
       /\ trace (snd (run (main p) w))
          = Post (Pipelines.request_for p payload table_id) :: rest
       /\ req_json (Pipelines.request_for p payload table_id) = payload
       /\ forall req, ~ In (Post req) rest.
Proof.
  destruct (run_ends p w) as (res & T & tr & Hrun & Hshape).
  specialize (Hrun (disk w)). rewrite with_disk_same in Hrun. rewrite Hrun.
  cbn [snd trace].
  destruct Hshape as [[-> _] | (payload & table_id & rest & Hl & -> & Hrest)];
    [now left|right].
  exists payload, table_id, rest. split; [exact Hl|]. split; [reflexivity|].
  split; [destruct p; reflexivity|].
  exact (after_request_no_post rest T Hrest).
Qed.

(** X2.  A run of either script leaves every file but one as it was: it
    writes no file at all, or it writes one file once and the files of
    the disk are the old ones with that file set.  The only directory a
    run may add is [data]. *)
Theorem run_frame p w :
  (dirs (fs (snd (run (main p) w))) = dirs (disk w)
   \/ dirs (fs (snd (run (main p) w))) = {[ "data" ]} ∪ dirs (disk w))
  /\ (writes_nothing w (snd (run (main p) w))
      \/ exists path content,
           files (fs (snd (run (main p) w))) = <[ path := content ]> (files (disk w))
           /\ forall path' content',
                In (WriteFile path' content') (trace (snd (run (main p) w)))
                <-> path' = path /\ content' = content).
Proof.
  destruct (run_ends p w) as (res & T & tr & Hrun & Hshape).
  specialize (Hrun (disk w)). rewrite with_disk_same in Hrun. rewrite Hrun.
  cbn [snd trace fs].
  destruct Hshape as [[-> HT] | (payload & table_id & rest & Hl & -> & Hrest)].
  { rewrite HT. split; [now left|]. left. split; [reflexivity|]. cbn. tauto. }
  destruct Hrest as [[-> HT] | [(l1 & l2 & -> & HT) | [[-> HT] | [(l1 & l2 & -> & HT)
         | (path & content & msg & -> & HT)]]]]; rewrite HT.
  1,2: split; [now left|]; left; split; [reflexivity|];
       cbn; intros ? ? H; intuition discriminate.
  1,2: split; [now right|]; left; split; [reflexivity|];
       cbn; intros ? ? H; intuition discriminate.
  split; [now right|]. right. exists path, content. split; [reflexivity|].
  intros path' content'. cbn [In]. split.
  - intros [H|[H|[H|[H|[]]]]]; try discriminate. injection H as <- <-. auto.
  - intros [-> ->]. right. right. left. reflexivity.
Qed.

(** X3.  Running a script again, with the same configuration file and
    the same answer of the server, on the disk the first run left, ends
    the same way, asks for the same effects and leaves the disk as the
    first run left it: the output is overwritten with the same content
    and the directory is created once. *)
Theorem rerun_changes_nothing p w :
  run (main p) (world_after w (snd (run (main p) w))) = run (main p) w.
Proof.
  destruct (run_ends p w) as (res & T & tr & Hrun & Hshape).
  pose proof (Hrun (disk w)) as H1. rewrite with_disk_same in H1.
  rewrite H1. unfold world_after. cbn [snd fs]. rewrite Hrun. f_equal. f_equal.
  destruct Hshape as [[_ HT] | (payload & table_id & rest & _ & _ & Hrest)].
  - now rewrite !HT.
  - exact (after_request_twice rest T Hrest (disk w)).
Qed.

(** X4.  When loading the configuration raises, at the file or at either
    subscript, the run ends with that very exception, raised in the
    first section, and has asked for nothing; in particular a
    configuration object without [queryObj] ends the run with
    [KeyError('queryObj')] whether or not [tableIdForQuery] is there, and
    one that has [queryObj] only with [KeyError('tableIdForQuery')]. *)
Theorem missing_key_named p w items k :
  json_load w (Pipelines.config_path p) = inr (Py.Dict items) ->
  (k = "queryObj" /\ Py.lookup "queryObj" items = None)
  \/ (k = "tableIdForQuery"
      /\ Py.lookup "queryObj" items <> None
      /\ Py.lookup "tableIdForQuery" items = None) ->
  run (main p) w
  = (inl {| raised_in := AtLoad; raised := Py.KeyError [k] |},
     {| fs := disk w; trace := [] |}).
Proof.
  intros Hc Hk. apply run_load_error. right. exists (Py.Dict items).
  split; [exact Hc|]. cbn [Py.getitem].
  destruct Hk as [[-> Hq] | (-> & Hq & Ht)].
  - left. now rewrite Hq.
  - right. destruct (Py.lookup "queryObj" items) as [payload|]; [|congruence].
    exists payload. split; [reflexivity|]. now rewrite Ht.
Qed.

Lemma missing_key_named_witness :
  json_load w_no_query (Pipelines.config_path direct_estimate)
  = inr (Py.Dict [("tableIdForQuery", Py.Str "AM0401N1")])
  /\ Py.lookup "queryObj" [("tableIdForQuery", Py.Str "AM0401N1")] = None
  /\ run DirectEstimate.main w_no_query
     = (inl {| raised_in := AtLoad; raised := Py.KeyError ["queryObj"] |},
        {| fs := disk w_no_query; trace := [] |}).
Proof.
  split; [reflexivity|]. split; [reflexivity|].
  exact (missing_key_named direct_estimate w_no_query _ "queryObj" eq_refl
           (or_introl (conj eq_refl eq_refl))).
Defined.

Lemma response_format_error payload :
  (forall fmt, declared_format payload <> inr (Py.Str fmt)) ->
  response_format payload = inl Py.AttributeError.
Proof.
  intros H. unfold response_format.
  destruct (declared_format payload) as [e|v] eqn:E.
  - cbn [and_then]. f_equal. unfold declared_format in E.
    destruct payload; cbn in E; try (now injection E as <-).
    destruct (Py.lookup "response" items) as [[]|]; cbn in E;
      try (now injection E as <-).
    + destruct (Py.lookup "format" items0); discriminate.
    + discriminate.
  - destruct v; try reflexivity. now destruct (H s).
Qed.

(** X5.  A declared format that is not a string ends the run with
    [AttributeError]: whether the query object is not an object, its
    [response] entry is not an object, or the [format] entry is not a
    string, both scripts raise after the request has been answered and
    before any directory is created or line printed. *)
Theorem format_must_be_text p w payload table_id r :
  fetched p w payload table_id r ->
  (forall fmt, declared_format payload <> inr (Py.Str fmt)) ->
  run (main p) w
  = (inl {| raised_in := AtParse; raised := Py.AttributeError |},
     {| fs := disk w; trace := [Post (Pipelines.request_for p payload table_id)] |}).
Proof.
  intros Hf Hfmt. apply run_format_error with r; [exact Hf|].
  now apply response_format_error.
Qed.

Lemma format_must_be_text_witness :
  fetched direct_estimate w_numeric_format
    (query_object (Py.Int 1)) (Py.Str "AM0401N1") (ok estimates_csv)
  /\ run DirectEstimate.main w_numeric_format
     = (inl {| raised_in := AtParse; raised := Py.AttributeError |},
        {| fs := disk w_numeric_format;
           trace := [Post (DirectEstimate.request_for
                             (query_object (Py.Int 1)) (Py.Str "AM0401N1"))] |}).
Proof.
  assert (H1 : fetched direct_estimate w_numeric_format
                 (query_object (Py.Int 1)) (Py.Str "AM0401N1") (ok estimates_csv))
    by evaluated.
  split; [exact H1|].
  apply (format_must_be_text direct_estimate w_numeric_format _ _ _ H1).
  intros fmt H. vm_compute in H. discriminate H.
Defined.

Lemma fetched_with_response p w payload table_id r r' :
  fetched p w payload table_id r ->
  ((400 <=? status_code r') && (status_code r' <? 600))%Z = false ->
  fetched p (with_response w r') payload table_id r'.
Proof.
  intros Hf Hs. destruct p; destruct Hf as [Hl _]; (split; [exact Hl|]);
    (split; [reflexivity|exact Hs]).
Qed.

(** X6.  Below 400 the status code is never looked at: when the server
    answers the same body with another status code that
    [raise_for_status] lets through (a 204 or a 301 as well as a 200),
    the run of either script ends the same way, with the same effects
    and the same files. *)
Theorem status_below_400_ignored p w payload table_id r code :
  fetched p w payload table_id r ->
  ((400 <=? code) && (code <? 600))%Z = false ->
  run (main p) (with_response w {| status_code := code; text := text r |})
  = run (main p) w.
Proof.
  intros Hf Hcode.
  pose proof (fetched_with_response p w payload table_id r
                {| status_code := code; text := text r |} Hf Hcode) as Hf'.
  destruct (response_format payload) as [e|v] eqn:He.
  { rewrite (run_format_error p _ payload table_id _ e Hf' He),
            (run_format_error p w payload table_id r e Hf He). reflexivity. }
  destruct (response_format_str payload v He) as [fmt ->].
  assert (Hd : dispatches p w payload table_id r fmt) by (split; assumption).
  assert (Hd' : dispatches p (with_response w {| status_code := code; text := text r |})
                  payload table_id {| status_code := code; text := text r |} fmt)
    by (split; assumption).
  destruct (String.eqb fmt "csv") eqn:Ecsv.
  { apply String.eqb_eq in Ecsv. subst fmt.
    rewrite (run_csv p _ payload table_id _ Hd'), (run_csv p w payload table_id r Hd).
    reflexivity. }
  destruct (String.eqb fmt "px") eqn:Epx.
  { apply String.eqb_eq in Epx. subst fmt.
    rewrite (run_px p _ payload table_id _ Hd'), (run_px p w payload table_id r Hd).
    reflexivity. }
  apply String.eqb_neq in Ecsv, Epx.
  rewrite (run_unrecognized p _ payload table_id _ fmt Hd' Ecsv Epx),
          (run_unrecognized p w payload table_id r fmt Hd Ecsv Epx).
  reflexivity.
Qed.

Lemma status_below_400_ignored_witness :
  fetched population_density w_blank
    (query_object (Py.Str "csv")) (Py.Str "BE0101U1") (ok blank_body)
  /\ run PopDensity.main
       (with_response w_blank {| status_code := 204; text := blank_body |})
     = run PopDensity.main w_blank.
Proof.
  assert (H1 : fetched population_density w_blank
                 (query_object (Py.Str "csv")) (Py.Str "BE0101U1") (ok blank_body))
    by evaluated.
  split; [exact H1|].
  exact (status_below_400_ignored population_density w_blank _ _ _ 204%Z H1 eq_refl).
Defined.

(** ** Properties of the cleaning *)

Lemma str_map_Forall2 (R : Pandas.cell -> Pandas.cell -> Prop) f v :
  (forall c, In c v ->
             R c (match c with Pandas.Str s => Pandas.Str (f s) | Pandas.NaN => Pandas.NaN end)) ->
  Forall2 R v (Pandas.str_map f v).
Proof.
  unfold Pandas.str_map. induction v as [|c v IH]; intros H; cbn [map]; constructor.
  - apply H. now left.
  - apply IH. intros c' Hc'. apply H. now right.
Qed.

Lemma str_map_ext_in f g v :
  (forall s, In (Pandas.Str s) v -> f s = g s) ->
  Pandas.str_map f v = Pandas.str_map g v.
Proof.
  intros H. unfold Pandas.str_map. apply map_ext_in. intros [s|] Hin; [|reflexivity].
  now rewrite H.
Qed.

Lemma clean_county_eq p county :
  clean_county p county = inr (Pandas.str_map (spec_clean (ignores_case p)) county).
Proof.
  destruct p; [exact (clean_county_spec direct_estimate county)
              |exact (clean_county_spec population_density county)].
Qed.

(** X7.  The cleaning of either script never raises and never invents
    text: it gives a column of the same length in which a missing value
    stays missing and every name is one contiguous piece of the name it
    was made from. *)
Theorem cleaned_name_is_piece p county :
  exists cleaned,
    clean_county p county = inr cleaned
    /\ Forall2 cell_piece county cleaned.
Proof.
  exists (Pandas.str_map (spec_clean (ignores_case p)) county). split.
  - apply clean_county_eq.
  - apply str_map_Forall2. intros [s|] _; cbn; [apply spec_clean_piece|exact I].
Qed.

(** X8.  The two scripts differ in the case sensitivity of the qualifier
    only: on a column whose names hold no capital letter the cleaning of
    [1_SCBdirect_estimate.py] and that of [2_SCBpopDensity.py] give the
    same result. *)
Theorem cleanings_agree_without_capitals county :
  Forall without_capitals county ->
  DirectEstimate.clean_county county = PopDensity.clean_county county.
Proof.
  intros H.
  rewrite (clean_county_spec direct_estimate county),
          (clean_county_spec population_density county).
  f_equal. cbn [ignores_case]. symmetry. apply str_map_ext_in. intros s Hin.
  apply spec_clean_no_capitals.
  rewrite List.Forall_forall in H. exact (H _ Hin).
Qed.

Lemma cleanings_agree_without_capitals_witness :
  Forall without_capitals [Pandas.Str "01 stockholm county"; Pandas.NaN]
  /\ DirectEstimate.clean_county [Pandas.Str "01 stockholm county"; Pandas.NaN]
     = PopDensity.clean_county [Pandas.Str "01 stockholm county"; Pandas.NaN].
Proof.
  assert (H : Forall without_capitals [Pandas.Str "01 stockholm county"; Pandas.NaN]).
  { repeat constructor. }
  split; [exact H|]. exact (cleanings_agree_without_capitals _ H).
Defined.



(** ** Properties of the [csv] branch *)

Lemma csv_normalizer_steps p text :
  csv_normalizer p text
  = and_then (Pandas.read_csv text) (fun df =>
    and_then (Pandas.getitem_list (Pandas.rename (renaming p) df) (selected p))
      (fun df_selected =>
    and_then (and_then (Pandas.getitem df_selected "County") Pandas.str) (fun county =>
    inr (Pandas.setitem df_selected "County"
           (Pandas.ObjectCol (Pandas.str_map (spec_clean (ignores_case p)) county)))))).
Proof.
  destruct p; unfold csv_normalizer, DirectEstimate.csv_normalizer,
    PopDensity.csv_normalizer;
    (destruct (Pandas.read_csv text) as [e|df]; [reflexivity|]);
    cbn [and_then renaming selected map snd];
    match goal with
    | |- context [Pandas.getitem_list ?a ?b] =>
        destruct (Pandas.getitem_list a b) as [e|df_selected]; [reflexivity|]
    end;
    cbn [and_then];
    (destruct (and_then (Pandas.getitem df_selected "County") Pandas.str)
       as [e|county]; [reflexivity|]);
    cbn [and_then].
  - now rewrite (clean_county_spec direct_estimate).
  - now rewrite (clean_county_spec population_density).
Qed.

Lemma labelled_single label (df : Pandas.DataFrame) l c nc :
  Pandas.labelled label df = [(l, c)] ->
  In nc df -> String.eqb (fst nc) label = true -> nc = (l, c).
Proof.
  intros E Hin Hl.
  assert (H : In nc (Pandas.labelled label df)).
  { unfold Pandas.labelled. apply filter_In. now split. }
  rewrite E in H. destruct H as [<-|[]]. reflexivity.
Qed.

Lemma getitem_series_single df label col :
  Pandas.getitem df label = inr (Pandas.Series col) ->
  exists l, Pandas.labelled label df = [(l, col)].
Proof.
  unfold Pandas.getitem.
  destruct (Pandas.labelled label df) as [|[l c] [|nc rest]]; try discriminate.
  intros H. injection H as <-. eauto.
Qed.

Lemma setitem_present df label col :
  Pandas.has_label df label = true ->
  Pandas.setitem df label col
  = map (fun '(name, c) => if String.eqb name label then (name, col) else (name, c)) df.
Proof. intros H. unfold Pandas.setitem. now rewrite H. Qed.

Lemma Forall2_map_in {A B} (R : A -> B -> Prop) (f : A -> B) l :
  (forall x, In x l -> R x (f x)) -> Forall2 R l (map f l).
Proof.
  induction l as [|x l IH]; intros H; cbn [map]; constructor.
  - apply H. now left.
  - apply IH. intros y Hy. apply H. now right.
Qed.

Lemma normalizer_written p text df_out :
  csv_normalizer p text = inr df_out ->
  exists df df_selected,
    Pandas.read_csv text = inr df
    /\ Pandas.getitem_list (Pandas.rename (renaming p) df) (selected p) = inr df_selected
    /\ Forall2 (column_written (spec_clean (ignores_case p))) df_selected df_out.
Proof.
  rewrite csv_normalizer_steps. intros H.
  destruct (Pandas.read_csv text) as [e|df]; [discriminate|]. cbn [and_then] in H.
  destruct (Pandas.getitem_list (Pandas.rename (renaming p) df) (selected p))
    as [e|df_selected] eqn:Hsel; [discriminate|]. cbn [and_then] in H.
  destruct (Pandas.getitem df_selected "County") as [e|x] eqn:Hget; [discriminate|].
  cbn [and_then] in H.
  destruct (Pandas.str x) as [e|county] eqn:Hstr; [discriminate|].
  cbn [and_then] in H. injection H as <-.
  apply str_series in Hstr as ->.
  destruct (getitem_series_single _ _ _ Hget) as [l Hl].
  exists df, df_selected. split; [reflexivity|]. split; [exact Hsel|].
  rewrite setitem_present.
  2:{ apply (has_label_in _ l (Pandas.ObjectCol county)).
      - apply (labelled_in "County" df_selected). rewrite Hl. now left.
      - assert (Hin : In (l, Pandas.ObjectCol county) (Pandas.labelled "County" df_selected))
          by (rewrite Hl; now left).
        apply labelled_in in Hin as [_ Hfst]. cbn in Hfst. subst l.
        apply String.eqb_refl. }
  apply Forall2_map_in. intros [name c] Hin. unfold column_written. cbn [fst snd].
  destruct (String.eqb name "County") eqn:En; cbn [fst snd].
  - split; [reflexivity|].
    pose proof (labelled_single _ _ _ _ _ Hl Hin En) as E. injection E as -> ->.
    exists county, (Pandas.str_map (spec_clean (ignores_case p)) county).
    split; [reflexivity|]. split; [reflexivity|].
    apply str_map_Forall2. intros [s|] _; cbn; auto.
  - split; reflexivity.
Qed.



Lemma columns_labelled l (df : Pandas.DataFrame) l' :
  In l' (Pandas.columns (Pandas.labelled l df)) -> l' = l.
Proof.
  unfold Pandas.columns. rewrite in_map_iff. intros (nc & <- & Hin).
  now apply labelled_in in Hin as [_ H].
Qed.

Lemma has_label_labelled (df : Pandas.DataFrame) l :
  Pandas.has_label df l = true -> In l (Pandas.columns (Pandas.labelled l df)).
Proof.
  unfold Pandas.has_label, Pandas.columns. rewrite existsb_exists.
  intros (l' & Hin & E). apply String.eqb_eq in E. subst l'.
  apply in_map_iff in Hin as ([name c] & Hfst & Hin). cbn in Hfst. subst name.
  apply in_map_iff. exists (l, c). split; [reflexivity|].
  unfold Pandas.labelled. apply filter_In. split; [exact Hin|]. apply String.eqb_refl.
Qed.

Lemma getitem_list_columns df labels df_selected l :
  Pandas.getitem_list df labels = inr df_selected ->
  In l (Pandas.columns df_selected) <-> In l labels.
Proof.
  unfold Pandas.getitem_list.
  destruct (List.filter (fun l => negb (Pandas.has_label df l)) labels) eqn:E;
    [|discriminate].
  intros H. injection H as <-. split.
  - unfold Pandas.columns. rewrite in_map_iff. intros (nc & <- & Hin).
    apply in_flat_map in Hin as (l0 & Hl0 & Hin).
    apply labelled_in in Hin as [_ ->]. exact Hl0.
  - intros Hin.
    assert (Hhas : Pandas.has_label df l = true).
    { destruct (Pandas.has_label df l) eqn:Hh; [reflexivity|].
      assert (In l (List.filter (fun l => negb (Pandas.has_label df l)) labels))
        by (apply filter_In; split; [exact Hin|now rewrite Hh]).
      rewrite E in H. destruct H. }
    apply has_label_labelled in Hhas.
    unfold Pandas.columns in *. apply in_map_iff in Hhas as (nc & Hfst & Hnc).
    apply in_map_iff. exists nc. split; [exact Hfst|].
    apply in_flat_map. exists l. now split.
Qed.

Lemma column_written_labels f df_selected df_out :
  Forall2 (column_written f) df_selected df_out ->
  Pandas.columns df_out = Pandas.columns df_selected.
Proof.
  unfold Pandas.columns. induction 1 as [|x y l l' [Hxy _] _ IH]; [reflexivity|].
  cbn [map]. now rewrite Hxy, IH.
Qed.

(** X11.  The frame written by the [csv] branch carries the selected
    labels and no other: every selected label heads a column and no
    label of the response, such as [region], survives into the file. *)
Theorem written_columns p text df_out l :
  csv_normalizer p text = inr df_out ->
  In l (Pandas.columns df_out) <-> In l (selected p).
Proof.
  intros H.
  destruct (normalizer_written p text df_out H) as (df & df_selected & _ & Hsel & Hw).
  rewrite (column_written_labels _ _ _ Hw).
  exact (getitem_list_columns _ _ _ l Hsel).
Qed.

Lemma written_columns_witness :
  csv_normalizer population_density gap_csv = inr gap_out
  /\ (In "region" (Pandas.columns gap_out)
      <-> In "region" (selected population_density)).
Proof.
  assert (H : csv_normalizer population_density gap_csv = inr gap_out)
    by (vm_compute; reflexivity).
  split; [exact H|]. exact (written_columns population_density gap_csv gap_out "region" H).
Defined.

Lemma run_csv_error p w payload table_id r e :
  dispatches p w payload table_id r "csv" ->
  csv_normalizer p (text r) = inl e ->
  exists st,
    run (main p) w = (inl {| raised_in := AtParse; raised := e |}, st)
    /\ writes_nothing w st.
Proof.
  intros Hd He. rewrite (run_csv p w payload table_id r Hd), He.
  eexists. split; [reflexivity|].
  destruct p; (split; [reflexivity|]); cbn; intros path content H; intuition discriminate.
Qed.

(** X12.  The region column must be one column of text.  When what the
    selected frame holds under ['County'] is not a single column of
    strings (a column of bare codes read as numbers, an all-empty column,
    or two columns because the response had both [region] and [County]),
    the [.str] accessor raises [AttributeError] and the run of either
    script ends there without writing a file. *)
Theorem region_must_be_text p w payload table_id r df df_selected x :
  dispatches p w payload table_id r "csv" ->
  Pandas.read_csv (text r) = inr df ->
  Pandas.getitem_list (Pandas.rename (renaming p) df) (selected p) = inr df_selected ->
  Pandas.getitem df_selected "County" = inr x ->
  (forall v, x <> Pandas.Series (Pandas.ObjectCol v)) ->
  exists st,
    run (main p) w = (inl {| raised_in := AtParse; raised := Py.AttributeError |}, st)
    /\ writes_nothing w st.
Proof.
  intros Hd Hread Hsel Hget Hx. apply (run_csv_error p w payload table_id r _ Hd).
  rewrite csv_normalizer_steps, Hread. cbn [and_then]. rewrite Hsel. cbn [and_then].
  rewrite Hget. cbn [and_then].
  destruct x as [[v| | |]|several]; try reflexivity. now destruct (Hx v).
Qed.

Lemma region_must_be_text_witness :
  dispatches direct_estimate w_codes
    (query_object (Py.Str "csv")) (Py.Str "AM0401N1") (ok codes_csv) "csv"
  /\ Pandas.getitem
       [ ("County", Pandas.Int64Col [1%Z; 3%Z]);
         ("Percent_2025K1", Pandas.Float64Col [Pandas.FDec false 452 (-1); Pandas.FDec false 4 1]);
         ("Percent_2025K1_me",
          Pandas.Float64Col [Pandas.FDec false 11 (-1); Pandas.FDec false 13 (-1)]) ]
       "County"
     = inr (Pandas.Series (Pandas.Int64Col [1%Z; 3%Z]))
  /\ exists st,
       run DirectEstimate.main w_codes
       = (inl {| raised_in := AtParse; raised := Py.AttributeError |}, st)
       /\ writes_nothing w_codes st.
Proof.
  assert (H1 : dispatches direct_estimate w_codes
                 (query_object (Py.Str "csv")) (Py.Str "AM0401N1") (ok codes_csv) "csv")
    by evaluated.
  split; [exact H1|]. split; [reflexivity|].
  refine (region_must_be_text direct_estimate w_codes _ _ _ _ _
            (Pandas.Series (Pandas.Int64Col [1%Z; 3%Z])) H1 _ _ _ _).
  - vm_compute. reflexivity.
  - vm_compute. reflexivity.
  - reflexivity.
  - intros v H. discriminate H.
Defined.

(** ** Properties of the parsing *)

Lemma blank_cases c :
  blank c = true -> c = Pandas.LF \/ c = Pandas.CR \/ c = " "%char \/ c = "009"%char.
Proof.
  unfold blank, Pandas.IS_WHITESPACE. rewrite !orb_true_iff, !Ascii.eqb_eq. tauto.
Qed.

Lemma skip_bom_blank s : all_chars blank s = true -> Pandas.skip_bom s = s.
Proof.
  destruct s as [|c s]; [reflexivity|]. cbn [all_chars]. intros H.
  apply andb_true_iff in H as [H _].
  destruct (blank_cases c H) as [-> | [-> | [-> | ->]]]; reflexivity.
Qed.

Lemma tokenize_all_blank s t :
  all_chars blank s = true ->
  Pandas.lines t = [] ->
  (Pandas.state t = Pandas.START_RECORD \/ Pandas.state t = Pandas.EAT_CRNL_NOP
   \/ Pandas.state t = Pandas.WHITESPACE_LINE) ->
  Pandas.handle_eof (Pandas.tokenize_all t s) = inr [].
Proof.
  revert t. induction s as [|c s IH]; intros t Hs Hl Hst.
  - cbn [Pandas.tokenize_all]. unfold Pandas.handle_eof.
    destruct Hst as [-> | [-> | ->]]; now rewrite Hl.
  - cbn [all_chars] in Hs. apply andb_true_iff in Hs as [Hc Hs].
    cbn [Pandas.tokenize_all]. apply IH; [exact Hs| |].
    + unfold Pandas.step.
      destruct Hst as [-> | [-> | ->]];
        destruct (blank_cases c Hc) as [-> | [-> | [-> | ->]]]; exact Hl.
    + unfold Pandas.step.
      destruct Hst as [-> | [-> | ->]];
        destruct (blank_cases c Hc) as [-> | [-> | [-> | ->]]]; cbn; auto.
Qed.

Lemma read_csv_blank s :
  all_chars blank s = true -> Pandas.read_csv s = inl Py.EmptyDataError.
Proof.
  intros H. unfold Pandas.read_csv, Pandas.tokenize.
  rewrite (skip_bom_blank s H).
  rewrite (tokenize_all_blank s); [reflexivity|exact H|reflexivity|now left].
Qed.

(** X13.  A response body without data, empty or made of line breaks,
    spaces and tabs only, is refused by the parser: in a [csv] run of
    either script [read_csv] raises [EmptyDataError] and no file is
    written, not even one with the header alone. *)
Theorem blank_response_raises p w payload table_id r :
  dispatches p w payload table_id r "csv" ->
  all_chars blank (text r) = true ->
  exists st,
    run (main p) w = (inl {| raised_in := AtParse; raised := Py.EmptyDataError |}, st)
    /\ writes_nothing w st.
Proof.
  intros Hd Hb. apply (run_csv_error p w payload table_id r _ Hd).
  now rewrite csv_normalizer_steps, (read_csv_blank _ Hb).
Qed.

Lemma blank_response_raises_witness :
  dispatches population_density w_blank
    (query_object (Py.Str "csv")) (Py.Str "BE0101U1") (ok blank_body) "csv"
  /\ all_chars blank blank_body = true
  /\ exists st,
       run PopDensity.main w_blank
       = (inl {| raised_in := AtParse; raised := Py.EmptyDataError |}, st)
       /\ writes_nothing w_blank st.
Proof.
  assert (H1 : dispatches population_density w_blank
                 (query_object (Py.Str "csv")) (Py.Str "BE0101U1") (ok blank_body) "csv")
    by evaluated.
  split; [exact H1|]. split; [reflexivity|].
  exact (blank_response_raises population_density w_blank _ _ _ H1 eq_refl).
Defined.
